(** * Student score pipeline (problem1/src/main.cpp)

    A shallow embedding of the retrying student generator, the table
    printer, the processing steps and the step loop of [main], followed by
    the properties of the program that the specification states.

    Conventions of the embedding:
    - [double] is Rocq's primitive binary64 [float]; comparisons and
      arithmetic are the IEEE ones the C++ operators denote.
    - [int] is a [Z] kept in the signed 32-bit range; the one narrowing
      conversion of the program, [static_cast<int>], is [to_int].
    - [size_t] counters and container sizes are [nat] (a vector never holds
      2^64 elements, so no wrap-around is reachable on them).
    - Standard output is the list of [std::print]/[std::println] calls made,
      each with its format string and its arguments, in order.
    - The random engine and the two distributions drawn from it, and the
      library sort, are parameters: their code is the C++ standard
      library's, not the program's. *)

From Stdlib Require Import ZArith List String Ascii Bool Arith Lia.
From Stdlib Require Import Floats Uint63 Permutation Sorted.
Import ListNotations.

Local Open Scope Z_scope.

(* ------------------------------------------------------------------ *)
(** ** Formatted text and standard output *)

(** A value handed to [std::format]/[std::print]: a string, an [int], a
    [size_t], a [double], or the result of an inner [std::format] call. *)
#[local] Unset Elimination Schemes.
Inductive text : Type :=
| Str (s : string)
| Int (z : Z)
| Size (n : nat)
| Double (x : float)
| Format (fmt : string) (args : list text).
#[local] Set Elimination Schemes.

(** One call that writes to standard output. *)
Inductive out : Type :=
| Print (fmt : string) (args : list text)
| Println (fmt : string) (args : list text).

Definition stdout : Type := list out.

Definition nl : string := String "010"%char EmptyString.

(** [std::string(n, c)] *)
Fixpoint string_fill (n : nat) (c : ascii) : string :=
  match n with
  | O => EmptyString
  | S n' => String c (string_fill n' c)
  end.

(* ------------------------------------------------------------------ *)
(** ** Structs and constants *)

Record Student : Type := mkStudent { id : Z; score : float }.

Definition NUM_STUDENTS : nat := 30.
Definition MAX_SCORE : float := 100%float.
Definition MIN_SCORE : float := 0%float.
Definition PASS_THRESHOLD : float := 60%float.
Definition EXCELLENT_THRESHOLD : float := 85%float.
Definition SCORE_MEAN_CENTER : float := 70%float.
Definition SCORE_STD_DEV : float := 30%float.

(** [std::expected<T, E>] *)
Inductive expected (T E : Type) : Type :=
| value (t : T)
| unexpected (e : E).
Arguments value {T E} t.
Arguments unexpected {T E} e.

Definition SingleStudentResult : Type := expected Student text.

(** [static_cast<int>] of an unsigned value: reduction modulo 2^32 into the
    signed range. *)
Definition to_int (z : Z) : Z := (z + 2 ^ 31) mod 2 ^ 32 - 2 ^ 31.

Definition INT_MAX : Z := 2 ^ 31 - 1.

(** [double(n)] for a [size_t] [n]; the primitive conversion is from a
    63-bit integer, which covers every container size. *)
Definition double_of_size (n : nat) : float :=
  PrimFloat.of_uint63 (Uint63.of_Z (Z.of_nat n)).

(** The two messages [generate_single_student] can fail with. *)
Definition injected_message : text :=
  Format "Generation failed: {}" [Str "Simulated random error"].

Definition out_of_range_message (generated_score : float) : text :=
  Format "Generation failed: Raw score {:.2f} out of range [{:.1f}, {:.1f}]"
         [Double generated_score; Double MIN_SCORE; Double MAX_SCORE].

(** Membership in the closed interval [MIN_SCORE, MAX_SCORE]. *)
Definition in_score_range (x : float) : bool :=
  (MIN_SCORE <=? x)%float && (x <=? MAX_SCORE)%float.

(** The condition under which [generate_single_student] rejects a score,
    as a function of the score. *)
Definition out_of_range_test (generated_score : float) : bool :=
  (generated_score <? MIN_SCORE)%float || (MAX_SCORE <? generated_score)%float.

(* ------------------------------------------------------------------ *)
(** ** print_student_table *)

Definition W_ID : Z := 10.
Definition W_SCORE : Z := 12.
Definition TABLE_WIDTH : nat := Z.to_nat (W_ID + W_SCORE + 7).

(** The line printed for one student. *)
Definition table_row (student : Student) : out :=
  Println "| {:<{}} | {:<{}.2f} |"
    [Int (id student); Int W_ID; Double (score student); Int W_SCORE].

Definition no_students_note : out :=
  Println "(No students met the criteria for this list)" [].

(** The range-for loop of the table: one row per student, counting them. *)
Fixpoint print_rows (student_range : list Student) (count : nat)
  : stdout * nat :=
  match student_range with
  | [] => ([], count)
  | student :: rest =>
      let (rows, count') := print_rows rest (S count) in
      (table_row student :: rows, count')
  end.

Definition print_student_table (list_title : text)
  (student_range : list Student) (print_summary_count : bool) : stdout :=
  let (rows, count) := print_rows student_range 0%nat in
  [Println "--- {} ---" [list_title];
   Println "| {:<{}} | {:<{}} |"
     [Str "Student ID"; Int W_ID; Str "Score"; Int W_SCORE];
   Println "|{}|{}|"
     [Str (string_fill (Z.to_nat (W_ID + 2)) "-"%char);
      Str (string_fill (Z.to_nat (W_SCORE + 2)) "-"%char)]]
  ++ rows
  ++ [Println "{}" [Str (string_fill TABLE_WIDTH "-"%char)]]
  ++ (if print_summary_count
      then Println "Total matching students: {}" [Size count]
           :: (if (count =? 0)%nat
               then [no_students_note]
               else [])
      else [])
  ++ [Println "" []].

(* ------------------------------------------------------------------ *)
(** ** ProcessingStep and execute_processing_step *)

(** [core_logic] is a [std::function<void(std::vector<Student>&)>]: it
    receives the shared vector, and leaves it in a new state and some
    output behind. *)
Record ProcessingStep : Type := mkStep {
  main_title : string;
  core_logic : list Student -> list Student * stdout
}.

Definition STATIC_STEP_TITLE : string := "(Hypothetical Static Step)".

Definition vector_empty (data : list Student) : bool :=
  match data with [] => true | _ :: _ => false end.

Definition step_header (step : ProcessingStep) : out :=
  Println (nl ++ "========== {} ==========") [Str (main_title step)].

Definition no_data_notice : stdout :=
  [Println "--- No student data available to process for this step ---" [];
   Println "" []].

Definition execute_processing_step (step : ProcessingStep)
  (data : list Student) : list Student * stdout :=
  if vector_empty data && negb (String.eqb (main_title step) STATIC_STEP_TITLE)
  then (data, step_header step :: no_data_notice)
  else
    let (data', printed) := core_logic step data in
    (data', step_header step :: printed).

(** *** Factory functions *)

(** Filter & print: a [std::span<const Student>] view of the data, filtered,
    goes to the table printer; the vector itself is handed back as it was. *)
Definition make_filter_print_step (main_title : string) (list_title : text)
  (filter : Student -> bool) (print_summary : bool) : ProcessingStep :=
  {| main_title := main_title;
     core_logic := fun data =>
       let view := data in
       (data, print_student_table list_title (List.filter filter view)
                print_summary) |}.

(** Action step: the given action is the core logic. *)
Definition make_action_step (main_title : string)
  (action : list Student -> list Student * stdout) : ProcessingStep :=
  {| main_title := main_title; core_logic := action |}.

(** Custom logic step: the logic takes the data by const reference, so it
    can only print. *)
Definition make_custom_logic_step (main_title : string)
  (logic : list Student -> stdout) : ProcessingStep :=
  {| main_title := main_title;
     core_logic := fun data =>
       let const_data := data in
       (data, logic const_data) |}.

(** *** The lambdas of [main] that do not sort *)

Definition excellent_filter (s : Student) : bool :=
  (EXCELLENT_THRESHOLD <? score s)%float.

Definition failing_filter (s : Student) : bool :=
  (score s <? PASS_THRESHOLD)%float.

(** [std::accumulate(view.begin(), view.end(), 0.0, ...)] *)
Definition sum_scores (view : list Student) : float :=
  fold_left (fun current_sum s => (current_sum + score s)%float) view 0%float.

Definition average_of (view : list Student) : float :=
  (sum_scores view / double_of_size (List.length view))%float.

Definition above_average_logic (data : list Student) : stdout :=
  if vector_empty data then
    [Println "--- Statistics ---" [];
     Println "Number of students analyzed: 0" [];
     Println "Calculated Average Score: N/A" [];
     Println "--------------------" []]
    ++ print_student_table (Str "List: Scoring >= Average (N/A)") [] true
  else
    let view := data in
    let sum_of_scores := sum_scores view in
    let average_score :=
      (sum_of_scores / double_of_size (List.length view))%float in
    [Println "--- Statistics ---" [];
     Println "Number of students analyzed: {}" [Size (List.length view)];
     Println "Calculated Average Score: {:.2f}" [Double average_score];
     Println "--------------------" []]
    ++ print_student_table
         (Format "List: Scoring >= Average ({:.2f})" [Double average_score])
         (List.filter (fun s => (average_score <=? score s)%float) view)
         true.

(** [std::greater<>] on [double] *)
Definition greater (a b : float) : bool := (b <? a)%float.

(** What [std::ranges::sort(r, comp, proj)] guarantees of its result [r']
    for the input [r]: the same elements, and no element ordered by [comp]
    before one that precedes it. *)
Definition sorted_by (comp : float -> float -> bool) (proj : Student -> float)
  (r r' : list Student) : Prop :=
  Permutation r r' /\
  StronglySorted (fun a b => comp (proj b) (proj a) = false) r'.

(** A sample library sort, for running the program on concrete data:
    insertion from the right, an element going before the first one it is
    ordered before. *)
Fixpoint insert_by (comp : float -> float -> bool) (proj : Student -> float)
  (x : Student) (l : list Student) : list Student :=
  match l with
  | [] => [x]
  | y :: l' =>
      if comp (proj x) (proj y) then x :: y :: l'
      else y :: insert_by comp proj x l'
  end.

Definition insertion_sort (comp : float -> float -> bool)
  (proj : Student -> float) (l : list Student) : list Student :=
  fold_right (insert_by comp proj) [] l.

(** A sample random source, for running the generator on concrete draws:
    the engine is the list of raw draws still to come, each distribution
    takes the next one, and an exhausted engine yields a fixed draw. A
    normal distribution yields numbers only, so a NaN in the script is read
    as the mean. *)
Inductive draw : Type :=
| NormalDraw (x : float)
| UniformDraw (k : Z).

Definition script_engine : Type := list draw.

Definition script_normal (mean stddev : float) (e : script_engine)
  : float * script_engine :=
  match e with
  | NormalDraw x :: e' => (if is_nan x then mean else x, e')
  | _ :: e' => (mean, e')
  | [] => (mean, [])
  end.

Definition script_uniform (lo hi : Z) (e : script_engine)
  : Z * script_engine :=
  match e with
  | UniformDraw k :: e' => (k, e')
  | _ :: e' => (hi, e')
  | [] => (hi, [])
  end.

(* ------------------------------------------------------------------ *)
(** ** The program over its library parameters *)

Section Program.

Set Default Proof Using "Type".

(** [H] says a line is one of finitely many, each of another shape. *)
Ltac none_of_these H :=
  simpl in H;
  repeat (destruct H as [H | H]; [discriminate H |]);
  try discriminate H; contradiction H.

(** The state of [std::mt19937], and a draw from each distribution: the
    value drawn and the engine after it. *)
Variable engine : Type.
Variable normal_distribution : float -> float -> engine -> float * engine.
Variable uniform_int_distribution : Z -> Z -> engine -> Z * engine.

(** [std::ranges::sort(range, comp, proj)] *)
Variable ranges_sort :
  (float -> float -> bool) -> (Student -> float) ->
  list Student -> list Student.

(** *** generate_single_student *)

Definition generate_single_student (student_id : Z) (e : engine)
  : SingleStudentResult * engine :=
  let score_dist := normal_distribution SCORE_MEAN_CENTER SCORE_STD_DEV in
  let error_injector := uniform_int_distribution 1 20 in
  let (generated_score, e1) := score_dist e in
  let (injected, e2) := error_injector e1 in
  let injected_error := injected =? 1 in
  if injected_error then (unexpected injected_message, e2)
  else if (generated_score <? MIN_SCORE)%float
          || (MAX_SCORE <? generated_score)%float
  then (unexpected (out_of_range_message generated_score), e2)
  else (value (mkStudent student_id generated_score), e2).

(** *** The generation loops of [main]

    The inner [while (true)] has no bound in the program; [fuel] bounds the
    attempts the model follows, and [None] is "not finished within the
    fuel". The 5 ms sleep between attempts has no effect on the state. *)
Fixpoint attempt_loop (fuel : nat) (target_id : Z) (attempt_count : nat)
  (e : engine) : option (Student * stdout * engine) :=
  match fuel with
  | O => None
  | S fuel' =>
      let attempt_count := S attempt_count in
      let (result, e1) := generate_single_student target_id e in
      match result with
      | value s =>
          Some (s,
                [Println " [OK] Score: {:.2f} (Attempt {})"
                   [Double (score s); Size attempt_count]],
                e1)
      | unexpected error =>
          let failed :=
            Print (nl ++ "    [!!) Attempt {} Failed: {}. Retrying...")
              [Size attempt_count; error] in
          match attempt_loop fuel' target_id attempt_count e1 with
          | Some (s, printed, e2) => Some (s, failed :: printed, e2)
          | None => None
          end
      end
  end.

(** The outer [while (students.size() < NUM_STUDENTS)], for any number of
    students; each round may use up to [fuel] attempts. *)
Fixpoint generation_loop (fuel : nat) (num_students : nat)
  (students : list Student) (current_id_index : nat) (e : engine)
  : option (list Student * stdout * engine) :=
  if (List.length students <? num_students)%nat then
    match fuel with
    | O => None
    | S fuel' =>
        let target_id := to_int (Z.of_nat (current_id_index + 1)) in
        let announce :=
          Print "  Generating data for ID {:<4}..." [Int target_id] in
        match attempt_loop fuel target_id 0%nat e with
        | None => None
        | Some (s, printed, e1) =>
            match generation_loop fuel' num_students (students ++ [s])
                    (S current_id_index) e1 with
            | None => None
            | Some (students', printed', e2) =>
                Some (students', announce :: printed ++ printed', e2)
            end
        end
    end
  else Some (students, [], e).

(** The data generation part of [main], lines 166-189. *)
Definition generate_students (fuel : nat) (num_students : nat) (e : engine)
  : option (list Student * stdout * engine) :=
  let students := [] in
  let current_id_index := 0%nat in
  match generation_loop fuel num_students students current_id_index e with
  | None => None
  | Some (students', printed, e') =>
      Some (students',
            Println "========== Generating Data for {} Students (Normal Dist., Retry on Error) =========="
              [Size num_students]
            :: printed
            ++ [Println "======= Generation Complete: {} Students Generated ======="
                  [Size (List.length students')]],
            e')
  end.

(** *** The processing steps of [main] *)

Definition sort_and_print_action (data_to_sort_and_print : list Student)
  : list Student * stdout :=
  let sorted := ranges_sort greater score data_to_sort_and_print in
  (sorted,
   [Println "--- Sorting Data by Score (Descending)... ---" [];
    Println "--- Data Sorted Successfully ---" [];
    Println "" []]
   ++ print_student_table
        (Str "List: All Students (Sorted by Score Descending)") sorted false).

Definition step1 : ProcessingStep :=
  make_filter_print_step "(1) Filter: Excellent Students"
    (Format "List: Score > {:.1f}" [Double EXCELLENT_THRESHOLD])
    excellent_filter true.

Definition step2 : ProcessingStep :=
  make_filter_print_step "(2) Filter: Failing Students"
    (Format "List: Score < {:.1f}" [Double PASS_THRESHOLD])
    failing_filter true.

Definition step3 : ProcessingStep :=
  make_custom_logic_step "(3) Calculate & Filter: Above Average"
    above_average_logic.

Definition step4 : ProcessingStep :=
  make_action_step "(4) Action & View: Sort All and Print"
    sort_and_print_action.

Definition processing_steps : list ProcessingStep :=
  [step1; step2; step3; step4].

(** The step loop of [main], lines 268-270: each step in order on the one
    shared vector. *)
Fixpoint run_steps (steps : list ProcessingStep) (students : list Student)
  : list Student * stdout :=
  match steps with
  | [] => (students, [])
  | step :: rest =>
      let (students', printed) := execute_processing_step step students in
      let (students'', printed') := run_steps rest students' in
      (students'', printed ++ printed')
  end.

(** The vector each call of [execute_processing_step] in that loop is
    handed, in call order. *)
Fixpoint collections_seen (steps : list ProcessingStep)
  (students : list Student) : list (list Student) :=
  match steps with
  | [] => []
  | step :: rest =>
      students
      :: collections_seen rest (fst (execute_processing_step step students))
  end.

(** [main]: generation, then the steps, then the closing banner. *)
Definition main (fuel : nat) (e : engine)
  : option (list Student * stdout * engine) :=
  match generate_students fuel NUM_STUDENTS e with
  | None => None
  | Some (students, printed, e') =>
      let (students', printed') := run_steps processing_steps students in
      Some (students',
            printed
            ++ [Println (nl ++ "========== Processing Student Data ==========") []]
            ++ printed'
            ++ [Println (nl ++ "========== Processing Complete ==========") []],
            e')
  end.

(* ------------------------------------------------------------------ *)
(** ** Comparisons of doubles *)

Lemma SFcompare_antisym (a b : spec_float) :
  SFcompare b a = option_map CompOpp (SFcompare a b).
Proof.
  destruct a as [sa | sa | | sa ma ea], b as [sb | sb | | sb mb eb];
    simpl; try reflexivity;
    try (destruct sa; reflexivity); try (destruct sb; reflexivity);
    try (destruct sa, sb; reflexivity).
  destruct sa, sb; simpl; try reflexivity;
    rewrite (Z.compare_antisym ea eb);
    destruct (ea ?= eb); simpl; try reflexivity;
    rewrite (Pos.compare_cont_antisym ma mb Eq); simpl;
    try rewrite CompOpp_involutive; reflexivity.
Qed.

Lemma is_nan_false_spec (x : float) :
  is_nan x = false -> Prim2SF x <> S754_nan.
Proof.
  unfold is_nan. rewrite FloatAxioms.eqb_spec. unfold SFeqb.
  intros H E. rewrite E in H. discriminate.
Qed.

Lemma SFcompare_defined (a b : spec_float) :
  a <> S754_nan -> b <> S754_nan -> exists c, SFcompare a b = Some c.
Proof.
  destruct a, b; simpl; intros; try congruence; eexists; reflexivity.
Qed.

(** On numbers, [a < b] is the negation of [b <= a]. *)
Lemma ltb_negb_leb (a b : float) :
  is_nan a = false -> is_nan b = false ->
  (a <? b)%float = negb (b <=? a)%float.
Proof.
  intros Ha Hb. rewrite FloatAxioms.ltb_spec, FloatAxioms.leb_spec.
  unfold SFltb, SFleb.
  rewrite (SFcompare_antisym (Prim2SF a) (Prim2SF b)).
  destruct (SFcompare_defined (Prim2SF a) (Prim2SF b)) as [c Hc];
    auto using is_nan_false_spec.
  rewrite Hc. destruct c; reflexivity.
Qed.

(** [a <= b] holds of no NaN. *)
Lemma leb_true_not_nan (a b : float) :
  (a <=? b)%float = true -> is_nan a = false /\ is_nan b = false.
Proof.
  unfold is_nan. rewrite !FloatAxioms.eqb_spec, FloatAxioms.leb_spec.
  unfold SFleb, SFeqb.
  destruct (Prim2SF a) as [sa | sa | | sa ma ea],
           (Prim2SF b) as [sb | sb | | sb mb eb];
    simpl; try discriminate; intros _; split;
    repeat match goal with s : bool |- _ => destruct s end; simpl;
    rewrite ?Z.compare_refl, ?Pos.compare_cont_refl; reflexivity.
Qed.

Lemma out_of_range_test_spec (x : float) :
  is_nan x = false -> out_of_range_test x = negb (in_score_range x).
Proof.
  intros Hx. unfold out_of_range_test, in_score_range.
  rewrite (ltb_negb_leb x MIN_SCORE Hx eq_refl).
  rewrite (ltb_negb_leb MAX_SCORE x eq_refl Hx).
  rewrite negb_andb. reflexivity.
Qed.

Lemma in_score_range_passes (x : float) :
  in_score_range x = true -> out_of_range_test x = false.
Proof.
  intros H. rewrite out_of_range_test_spec.
  - rewrite H. reflexivity.
  - unfold in_score_range in H. apply andb_prop in H as [H _].
    apply leb_true_not_nan in H. exact (proj2 H).
Qed.

(* ------------------------------------------------------------------ *)
(** ** The generator *)

Lemma generate_single_student_unfold (student_id : Z) (e : engine) :
  generate_single_student student_id e =
  let (generated_score, e1) :=
    normal_distribution SCORE_MEAN_CENTER SCORE_STD_DEV e in
  let (injected, e2) := uniform_int_distribution 1 20 e1 in
  if injected =? 1 then (unexpected injected_message, e2)
  else if out_of_range_test generated_score
  then (unexpected (out_of_range_message generated_score), e2)
  else (value (mkStudent student_id generated_score), e2).
Proof. reflexivity. Qed.

(** C2. Whatever the id and the state of the engine: when the fault draw
    is 1 the result is the injected error, whatever score was drawn; when it
    is not, and the score drawn is a number, the result is the out-of-range
    error exactly when the score is outside [MIN_SCORE, MAX_SCORE], and is
    otherwise the student with the id given and the score as drawn. The
    engine is left after both draws in every case. *)
Theorem generate_single_student_cases (student_id : Z) (e : engine) :
  let drawn := normal_distribution SCORE_MEAN_CENTER SCORE_STD_DEV e in
  let fault := uniform_int_distribution 1 20 (snd drawn) in
  let generated_score := fst drawn in
  let result := fst (generate_single_student student_id e) in
  snd (generate_single_student student_id e) = snd fault /\
  (fst fault = 1 -> result = unexpected injected_message) /\
  (fst fault <> 1 -> is_nan generated_score = false ->
   (result = unexpected (out_of_range_message generated_score) <->
    in_score_range generated_score = false) /\
   (in_score_range generated_score = true ->
    result = value (mkStudent student_id generated_score))).
Proof.
  cbv zeta. rewrite generate_single_student_unfold.
  destruct (normal_distribution SCORE_MEAN_CENTER SCORE_STD_DEV e)
    as [x e1]; simpl.
  destruct (uniform_int_distribution 1 20 e1) as [k e2]; simpl.
  destruct (Z.eqb_spec k 1) as [Hk | Hk].
  - repeat split; try reflexivity; intros; contradiction.
  - split; [destruct (out_of_range_test x); reflexivity |].
    split; [intros; contradiction |].
    intros _ Hnan. rewrite (out_of_range_test_spec x Hnan).
    destruct (in_score_range x); simpl; repeat split;
      try reflexivity; intros; discriminate.
Qed.

(* ------------------------------------------------------------------ *)
(** ** The table printer *)

Lemma print_rows_spec (student_range : list Student) (count : nat) :
  print_rows student_range count =
  (map table_row student_range, (count + List.length student_range)%nat).
Proof.
  revert count. induction student_range as [| s l IH]; intros count; simpl.
  - f_equal. lia.
  - rewrite IH. f_equal. lia.
Qed.

(** The lines that follow the rows of a table of [count] students. *)
Definition table_footer (print_summary_count : bool) (count : nat) : stdout :=
  [Println "{}" [Str (string_fill TABLE_WIDTH "-"%char)]]
  ++ (if print_summary_count
      then Println "Total matching students: {}" [Size count]
           :: (if (count =? 0)%nat then [no_students_note] else [])
      else [])
  ++ [Println "" []].

Definition table_head (list_title : text) : stdout :=
  [Println "--- {} ---" [list_title];
   Println "| {:<{}} | {:<{}} |"
     [Str "Student ID"; Int W_ID; Str "Score"; Int W_SCORE];
   Println "|{}|{}|"
     [Str (string_fill (Z.to_nat (W_ID + 2)) "-"%char);
      Str (string_fill (Z.to_nat (W_SCORE + 2)) "-"%char)]].

Lemma print_student_table_spec (list_title : text)
  (student_range : list Student) (print_summary_count : bool) :
  print_student_table list_title student_range print_summary_count =
  table_head list_title ++ map table_row student_range
  ++ table_footer print_summary_count (List.length student_range).
Proof.
  unfold print_student_table. rewrite print_rows_spec. reflexivity.
Qed.

Lemma table_row_inj (s t : Student) : table_row s = table_row t -> s = t.
Proof.
  destruct s, t. unfold table_row. simpl. intros H.
  injection H as -> ->. reflexivity.
Qed.

(** A student's row is in a table exactly when the student is in the range
    printed. *)
Lemma table_row_in (list_title : text) (student_range : list Student)
  (print_summary_count : bool) (s : Student) :
  In (table_row s)
     (print_student_table list_title student_range print_summary_count)
  <-> In s student_range.
Proof.
  rewrite print_student_table_spec. rewrite !in_app_iff, in_map_iff. split.
  - intros [H | [[t [Ht Hin]] | H]].
    + none_of_these H.
    + apply table_row_inj in Ht. subst. exact Hin.
    + exfalso. unfold table_footer in H.
      destruct print_summary_count;
        [destruct (List.length student_range =? 0)%nat |];
        none_of_these H.
  - intros H. right. left. exists s. split; [reflexivity | exact H].
Qed.

(* ------------------------------------------------------------------ *)
(** ** execute_processing_step and the step loop *)

Lemma vector_empty_spec (data : list Student) :
  vector_empty data = true <-> data = [].
Proof. destruct data; simpl; split; congruence. Qed.

(** C3. A step's body runs on the data, after the header, when the data
    is not empty or the step's title is the literal
    "(Hypothetical Static Step)"; in every other case the data is left as it
    is and the fixed notice is printed after the header, whatever the body.
    Nothing of the step but its title enters the decision. *)
Theorem execute_processing_step_guard (step : ProcessingStep)
  (data : list Student) :
  STATIC_STEP_TITLE = "(Hypothetical Static Step)"%string /\
  (data <> [] \/ main_title step = STATIC_STEP_TITLE ->
   execute_processing_step step data =
   (fst (core_logic step data),
    step_header step :: snd (core_logic step data))) /\
  (~ (data <> [] \/ main_title step = STATIC_STEP_TITLE) ->
   execute_processing_step step data =
   (data,
    [step_header step;
     Println "--- No student data available to process for this step ---" [];
     Println "" []])).
Proof.
  split; [reflexivity |]. unfold execute_processing_step.
  destruct (String.eqb_spec (main_title step) STATIC_STEP_TITLE) as [Ht | Ht];
    destruct data as [| s l]; simpl.
  - split; [destruct (core_logic step []); reflexivity |].
    intros H. exfalso. apply H. right. exact Ht.
  - split; [destruct (core_logic step (s :: l)); reflexivity |].
    intros H. exfalso. apply H. left. discriminate.
  - split; [| reflexivity]. intros [H | H]; congruence.
  - split; [destruct (core_logic step (s :: l)); reflexivity |].
    intros H. exfalso. apply H. left. discriminate.
Qed.

(** C8. A filter-and-print step hands the data back as it received it,
    whatever the predicate, the titles and the summary flag: its body does,
    and so does its execution through [execute_processing_step]. *)
Theorem filter_print_step_keeps_data (title : string) (list_title : text)
  (filter : Student -> bool) (print_summary : bool) (data : list Student) :
  let step := make_filter_print_step title list_title filter print_summary in
  fst (core_logic step data) = data /\
  fst (execute_processing_step step data) = data /\
  List.length (fst (execute_processing_step step data)) = List.length data.
Proof.
  cbv zeta. unfold execute_processing_step. simpl.
  destruct (vector_empty data && _); simpl; auto.
Qed.

(** Steps whose body leaves the data as it is. *)
Definition read_only (step : ProcessingStep) : Prop :=
  forall data, fst (core_logic step data) = data.

Lemma filter_print_step_read_only (title : string) (list_title : text)
  (filter : Student -> bool) (print_summary : bool) :
  read_only (make_filter_print_step title list_title filter print_summary).
Proof. intros data. reflexivity. Qed.

Lemma custom_logic_step_read_only (title : string)
  (logic : list Student -> stdout) :
  read_only (make_custom_logic_step title logic).
Proof. intros data. reflexivity. Qed.

Lemma execute_read_only (step : ProcessingStep) (data : list Student) :
  read_only step -> fst (execute_processing_step step data) = data.
Proof.
  intros H. unfold execute_processing_step.
  destruct (vector_empty data && _); simpl; [reflexivity |].
  specialize (H data). destruct (core_logic step data). exact H.
Qed.

Lemma run_steps_app (pre post : list ProcessingStep) (data : list Student) :
  run_steps (pre ++ post) data =
  (fst (run_steps post (fst (run_steps pre data))),
   snd (run_steps pre data) ++ snd (run_steps post (fst (run_steps pre data)))).
Proof.
  revert data. induction pre as [| step pre IH]; intros data; simpl.
  - destruct (run_steps post data); reflexivity.
  - destruct (execute_processing_step step data) as [d1 o1].
    rewrite IH. destruct (run_steps pre d1) as [d2 o2]. simpl.
    rewrite app_assoc. reflexivity.
Qed.

Lemma collections_seen_app (pre post : list ProcessingStep)
  (data : list Student) :
  collections_seen (pre ++ post) data =
  collections_seen pre data
  ++ collections_seen post (fst (run_steps pre data)).
Proof.
  revert data. induction pre as [| step pre IH]; intros data; simpl.
  - reflexivity.
  - rewrite IH. destruct (execute_processing_step step data) as [d1 o1].
    simpl. destruct (run_steps pre d1). reflexivity.
Qed.

Lemma collections_seen_length (steps : list ProcessingStep)
  (data : list Student) :
  List.length (collections_seen steps data) = List.length steps.
Proof.
  revert data. induction steps as [| step steps IH]; intros data; simpl;
    [| rewrite IH]; reflexivity.
Qed.

(** What a step leaves of the vector, in the words of the specification:
    what its body leaves when the body is invoked, which is when the vector
    is not empty or the title is the exempt one, and the vector as it was
    when the step is skipped. *)
Definition left_by (step : ProcessingStep) (data : list Student)
  : list Student :=
  match data with
  | [] =>
      if String.eqb (main_title step) STATIC_STEP_TITLE
      then fst (core_logic step [])
      else []
  | _ :: _ => fst (core_logic step data)
  end.

(** The vector after a sequence of steps, each applied to what the one
    before it left. *)
Definition left_by_all (steps : list ProcessingStep) (data : list Student)
  : list Student :=
  fold_left (fun d step => left_by step d) steps data.

Lemma execute_left_by (step : ProcessingStep) (data : list Student) :
  fst (execute_processing_step step data) = left_by step data.
Proof.
  unfold execute_processing_step, left_by.
  destruct data as [| s l]; simpl.
  - destruct (String.eqb (main_title step) STATIC_STEP_TITLE); simpl;
      [destruct (core_logic step []) |]; reflexivity.
  - destruct (core_logic step (s :: l)); reflexivity.
Qed.

Lemma run_steps_left_by_all (steps : list ProcessingStep)
  (data : list Student) :
  fst (run_steps steps data) = left_by_all steps data.
Proof.
  revert data. induction steps as [| step steps IH]; intros data;
    [reflexivity |].
  unfold left_by_all. simpl. rewrite <- execute_left_by.
  destruct (execute_processing_step step data) as [d1 o1].
  specialize (IH d1). destruct (run_steps steps d1) as [d2 o2].
  simpl in *. exact IH.
Qed.

(** The output of a step executed on a vector on which its body runs. *)
Lemma execute_output_runs (step : ProcessingStep) (data : list Student) :
  data <> [] ->
  snd (execute_processing_step step data)
  = step_header step :: snd (core_logic step data).
Proof.
  intros Hne. unfold execute_processing_step.
  destruct data as [| s l]; [contradiction Hne; reflexivity |]. simpl.
  destruct (core_logic step (s :: l)); reflexivity.
Qed.

(** C7. In the step loop, the step at any position is handed the vector
    that the bodies of the steps before it, invoked in their order, have
    left. With [A] then [B] consecutive, [B] is handed what [A] left of what
    [A] was handed: when [A] was handed a vector that is not empty, that is
    what the body of [A] made of it, and when what [A] left is not empty the
    body of [B] is invoked on exactly that. Neither depends on [B] or on any
    later step. The run leaves what the bodies leave in sequence, and its
    output is the output of the steps before, then [A]'s, then [B]'s, then
    that of the rest. *)
Theorem step_loop_order (pre post : list ProcessingStep)
  (A B : ProcessingStep) (data : list Student) :
  let steps := pre ++ A :: B :: post in
  let before_A := left_by_all pre data in
  let after_A := left_by A before_A in
  let after_B := left_by B after_A in
  nth_error (collections_seen steps data) (List.length pre) = Some before_A /\
  nth_error (collections_seen steps data) (S (List.length pre))
  = Some after_A /\
  (before_A <> [] -> after_A = fst (core_logic A before_A)) /\
  (after_A <> [] ->
   after_B = fst (core_logic B after_A) /\
   snd (execute_processing_step B after_A)
   = step_header B :: snd (core_logic B after_A)) /\
  fst (run_steps pre data) = before_A /\
  fst (execute_processing_step A before_A) = after_A /\
  fst (execute_processing_step B after_A) = after_B /\
  run_steps steps data =
  (left_by_all post after_B,
   snd (run_steps pre data)
   ++ snd (execute_processing_step A before_A)
   ++ snd (execute_processing_step B after_A)
   ++ snd (run_steps post after_B)).
Proof.
  cbv zeta. rewrite collections_seen_app, run_steps_app.
  rewrite !nth_error_app2 by (rewrite collections_seen_length; lia).
  rewrite collections_seen_length.
  replace (List.length pre - List.length pre)%nat with 0%nat by lia.
  replace (S (List.length pre) - List.length pre)%nat with 1%nat by lia.
  rewrite (run_steps_left_by_all pre data).
  set (before_A := left_by_all pre data).
  pose proof (execute_left_by A before_A) as HA.
  pose proof (execute_left_by B (left_by A before_A)) as HB.
  pose proof (run_steps_left_by_all post (left_by B (left_by A before_A)))
    as Hpost.
  split; [reflexivity |].
  split; [simpl; rewrite HA; reflexivity |].
  split.
  { intros Hne. unfold left_by.
    destruct before_A; [contradiction Hne |]; reflexivity. }
  split.
  { intros Hne. split; [| apply execute_output_runs; exact Hne].
    unfold left_by at 1.
    destruct (left_by A before_A); [contradiction Hne |]; reflexivity. }
  split; [reflexivity |]. split; [exact HA |]. split; [exact HB |].
  simpl.
  destruct (execute_processing_step A before_A) as [dA oA].
  simpl in HA. subst dA.
  destruct (execute_processing_step B (left_by A before_A)) as [dB oB].
  simpl in HB. subst dB.
  destruct (run_steps post (left_by B (left_by A before_A))) as [dP oP].
  simpl in Hpost. subst dP. simpl. reflexivity.
Qed.

(** C9. A step whose title is not "(Hypothetical Static Step)" leaves an
    empty vector empty, and no such step's body is reached on it: in a loop
    over such steps every step is handed the empty vector, each execution
    prints the header and the notice only, and the vector is empty at the
    end. *)
Theorem empty_collection_stays_empty (steps : list ProcessingStep) :
  Forall (fun step => main_title step <> STATIC_STEP_TITLE) steps ->
  fst (run_steps steps []) = [] /\
  Forall (fun seen => seen = []) (collections_seen steps []) /\
  Forall (fun step =>
            execute_processing_step step [] =
            ([], step_header step :: no_data_notice)) steps.
Proof.
  induction 1 as [| step steps Ht Hrest IH]; simpl.
  - repeat split; constructor.
  - assert (Hskip : execute_processing_step step [] =
                    ([], step_header step :: no_data_notice)).
    { unfold execute_processing_step. simpl.
      destruct (String.eqb_spec (main_title step) STATIC_STEP_TITLE);
        [contradiction | reflexivity]. }
    rewrite Hskip. simpl. destruct IH as (IH1 & IH2 & IH3).
    destruct (run_steps steps []) as [d o]. simpl in *.
    repeat split; try constructor; auto.
Qed.

Lemma processing_steps_titles :
  Forall (fun step => main_title step <> STATIC_STEP_TITLE) processing_steps.
Proof. repeat constructor; discriminate. Qed.

(** C10. Both thresholds are exclusive. A student scoring exactly
    [EXCELLENT_THRESHOLD] passes neither the filter of step 1 nor that of
    step 2, and so does a student scoring exactly [PASS_THRESHOLD]; whatever
    data steps 1 and 2 run on, no row of their tables is such a student's. *)
Theorem threshold_boundaries_exclusive (student_id : Z)
  (data : list Student) :
  let at_excellent := mkStudent student_id EXCELLENT_THRESHOLD in
  let at_pass := mkStudent student_id PASS_THRESHOLD in
  excellent_filter at_excellent = false /\
  failing_filter at_pass = false /\
  excellent_filter at_pass = false /\
  failing_filter at_excellent = false /\
  ~ In (table_row at_excellent) (snd (core_logic step1 data)) /\
  ~ In (table_row at_pass) (snd (core_logic step2 data)) /\
  ~ In (table_row at_excellent) (snd (core_logic step2 data)) /\
  ~ In (table_row at_pass) (snd (core_logic step1 data)).
Proof.
  cbv zeta. repeat split; try reflexivity;
    simpl; rewrite table_row_in, filter_In; intros [_ H];
    vm_compute in H; discriminate H.
Qed.

(* ------------------------------------------------------------------ *)
(** ** The configured steps on given data *)

Lemma run_steps_read_only (steps : list ProcessingStep)
  (data : list Student) :
  Forall read_only steps ->
  fst (run_steps steps data) = data /\
  collections_seen steps data = repeat data (List.length steps).
Proof.
  induction 1 as [| step steps Hro Hrest IH]; simpl; [split; reflexivity |].
  pose proof (execute_read_only step data Hro) as Hx.
  destruct (execute_processing_step step data) as [d1 o1]. simpl in *.
  subst d1. destruct IH as [IH1 IH2].
  destruct (run_steps steps data) as [d2 o2]. simpl in *.
  split; [exact IH1 | rewrite IH2; reflexivity].
Qed.

Definition average_example : list Student :=
  [mkStudent 1 60%float; mkStudent 2 80%float].

(** C6. On the data [{1,60.0},{2,80.0}] the custom step computes the
    average 70.0 exactly, prints it in the statistics and in the title of
    its table, and the table has one row, that of {2,80.0}. *)
Theorem above_average_example :
  average_of average_example = 70%float /\
  List.filter (fun s => (70 <=? score s)%float) average_example
  = [mkStudent 2 80%float] /\
  core_logic step3 average_example =
  (average_example,
   [Println "--- Statistics ---" [];
    Println "Number of students analyzed: {}" [Size 2];
    Println "Calculated Average Score: {:.2f}" [Double 70%float];
    Println "--------------------" []]
   ++ print_student_table
        (Format "List: Scoring >= Average ({:.2f})" [Double 70%float])
        [mkStudent 2 80%float] true) /\
  (forall s, In (table_row s) (snd (core_logic step3 average_example))
             <-> s = mkStudent 2 80%float).
Proof.
  assert (Hbody : core_logic step3 average_example =
    (average_example,
     [Println "--- Statistics ---" [];
      Println "Number of students analyzed: {}" [Size 2];
      Println "Calculated Average Score: {:.2f}" [Double 70%float];
      Println "--------------------" []]
     ++ print_student_table
          (Format "List: Scoring >= Average ({:.2f})" [Double 70%float])
          [mkStudent 2 80%float] true)) by (vm_compute; reflexivity).
  repeat split; try (vm_compute; reflexivity); try exact Hbody.
  - rewrite Hbody. cbn [snd]. rewrite in_app_iff, table_row_in.
    intros [H | [H | []]]; [| symmetry; exact H].
    none_of_these H.
  - intros ->. rewrite Hbody. cbn [snd]. rewrite in_app_iff, table_row_in.
    right. left. reflexivity.
Qed.

Definition sort_example : list Student :=
  [mkStudent 1 50%float; mkStudent 2 90%float; mkStudent 3 70%float].

Definition sort_example_sorted : list Student :=
  [mkStudent 2 90%float; mkStudent 3 70%float; mkStudent 1 50%float].

Lemma permutation3_cases (a b c : Student) (r : list Student) :
  Permutation [a; b; c] r ->
  exists x y z, r = [x; y; z] /\
    In x [a; b; c] /\ In y [a; b; c] /\ In z [a; b; c].
Proof.
  intros Hp. pose proof (Permutation_length Hp) as Hlen.
  destruct r as [| x [| y [| z [| w r]]]]; try discriminate Hlen.
  exists x, y, z. split; [reflexivity |].
  repeat split; apply (Permutation_in _ (Permutation_sym Hp)); simpl;
    [left | right; left | right; right; left]; reflexivity.
Qed.

Lemma strongly_sorted3 (R : Student -> Student -> Prop) (x y z : Student) :
  StronglySorted R [x; y; z] -> R x y /\ R x z /\ R y z.
Proof.
  intros H. apply StronglySorted_inv in H as [H Hx].
  apply StronglySorted_inv in H as [_ Hy].
  apply Forall_inv in Hy. pose proof (Forall_inv Hx) as Hxy.
  apply Forall_inv_tail, Forall_inv in Hx. auto.
Qed.

(** The three scores of [sort_example] differ, so what the library sort
    guarantees leaves one result possible. *)
Lemma sorted_by_example_unique (r : list Student) :
  sorted_by greater score sort_example r -> r = sort_example_sorted.
Proof.
  intros [Hp Hs]. destruct (permutation3_cases _ _ _ _ Hp)
    as (x & y & z & -> & Hx & Hy & Hz).
  apply strongly_sorted3 in Hs as (Hxy & Hxz & Hyz).
  apply (Permutation_map id), (Permutation_NoDup (l := map id sort_example))
    in Hp; [| repeat constructor; intros H; none_of_these H].
  simpl in Hx, Hy, Hz.
  destruct Hx as [<- | [<- | [<- | []]]];
    destruct Hy as [<- | [<- | [<- | []]]];
    destruct Hz as [<- | [<- | [<- | []]]];
    try reflexivity;
    try (vm_compute in Hxy; discriminate Hxy);
    try (vm_compute in Hxz; discriminate Hxz);
    try (vm_compute in Hyz; discriminate Hyz);
    exfalso; simpl in Hp;
    repeat match goal with
           | H : NoDup (_ :: _) |- _ =>
               apply NoDup_cons_iff in H as [? ?]
           end;
    match goal with
    | H : ~ In _ _ |- _ => apply H; simpl; solve [auto]
    end.
Qed.

(** C5. The sort step reorders the vector by descending score: on any
    data on which the library sort delivers what it guarantees, the vector
    the step leaves is a rearrangement of the data in which no student scores
    below a later one, it is the vector printed, it is what the execution of
    the step leaves, and in any loop where read-only steps follow the sort
    step each of them is handed the vector in that order, which is also the
    order at the end. On [sort_example] that order is
    [{2,90.0},{3,70.0},{1,50.0}], and the run of the configured steps on that
    data ends with the vector in that order. *)
Theorem sort_step_example :
  sorted_by greater score sort_example
    (ranges_sort greater score sort_example) ->
  core_logic step4 sort_example =
  (sort_example_sorted,
   [Println "--- Sorting Data by Score (Descending)... ---" [];
    Println "--- Data Sorted Successfully ---" [];
    Println "" []]
   ++ print_student_table
        (Str "List: All Students (Sorted by Score Descending)")
        sort_example_sorted false) /\
  fst (execute_processing_step step4 sort_example) = sort_example_sorted /\
  fst (run_steps processing_steps sort_example) = sort_example_sorted /\
  (forall later : list ProcessingStep,
     Forall read_only later ->
     collections_seen (step4 :: later) sort_example
     = sort_example :: repeat sort_example_sorted (List.length later) /\
     fst (run_steps (step4 :: later) sort_example) = sort_example_sorted) /\
  (forall data : list Student,
     sorted_by greater score data (ranges_sort greater score data) ->
     let left := fst (core_logic step4 data) in
     Permutation data left /\
     StronglySorted (fun a b => (score a <? score b)%float = false) left /\
     snd (core_logic step4 data)
     = [Println "--- Sorting Data by Score (Descending)... ---" [];
        Println "--- Data Sorted Successfully ---" [];
        Println "" []]
       ++ print_student_table
            (Str "List: All Students (Sorted by Score Descending)")
            left false /\
     fst (execute_processing_step step4 data) = left /\
     (data <> [] -> fst (run_steps processing_steps data) = left) /\
     (forall later : list ProcessingStep,
        Forall read_only later ->
        collections_seen (step4 :: later) data
        = data :: repeat left (List.length later) /\
        fst (run_steps (step4 :: later) data) = left)).
Proof.
  assert (Hgeneral : forall data : list Student,
    sorted_by greater score data (ranges_sort greater score data) ->
    let left := fst (core_logic step4 data) in
    Permutation data left /\
    StronglySorted (fun a b => (score a <? score b)%float = false) left /\
    snd (core_logic step4 data)
    = [Println "--- Sorting Data by Score (Descending)... ---" [];
       Println "--- Data Sorted Successfully ---" [];
       Println "" []]
      ++ print_student_table
           (Str "List: All Students (Sorted by Score Descending)")
           left false /\
    fst (execute_processing_step step4 data) = left /\
    (data <> [] -> fst (run_steps processing_steps data) = left) /\
    (forall later : list ProcessingStep,
       Forall read_only later ->
       collections_seen (step4 :: later) data
       = data :: repeat left (List.length later) /\
       fst (run_steps (step4 :: later) data) = left)).
  { intros data [Hperm Hsorted]. cbv zeta.
    change (fst (core_logic step4 data))
      with (ranges_sort greater score data).
    assert (Hexec : fst (execute_processing_step step4 data)
                    = ranges_sort greater score data).
    { destruct data as [| s l]; [| reflexivity].
      simpl. symmetry. apply Permutation_nil. exact Hperm. }
    split; [exact Hperm |]. split; [exact Hsorted |].
    split; [reflexivity |]. split; [exact Hexec |]. split.
    - intros Hne.
      change processing_steps with ([step1; step2; step3] ++ [step4]).
      rewrite run_steps_app.
      destruct (run_steps_read_only [step1; step2; step3] data)
        as [-> _].
      { repeat constructor; intros d; reflexivity. }
      cbn [fst run_steps].
      destruct (execute_processing_step step4 data) as [d o].
      simpl in *. exact Hexec.
    - intros later Hlater. cbn [collections_seen run_steps].
      destruct (execute_processing_step step4 data) as [d o].
      simpl in Hexec. subst d. cbn [fst].
      destruct (run_steps_read_only later (ranges_sort greater score data)
                  Hlater) as [H1 H2].
      rewrite H2. destruct (run_steps later (ranges_sort greater score data)).
      split; [reflexivity | exact H1]. }
  intros Hsort.
  destruct (Hgeneral sort_example Hsort)
    as (_ & _ & Hout & Hexec & Hrun & Hlater).
  pose proof (sorted_by_example_unique _ Hsort) as Heq.
  change (fst (core_logic step4 sort_example))
    with (ranges_sort greater score sort_example) in *.
  rewrite Heq in *.
  split.
  { simpl. unfold sort_and_print_action. rewrite Heq. reflexivity. }
  split; [exact Hexec |].
  split; [apply Hrun; discriminate |].
  split; [exact Hlater | exact Hgeneral].
Qed.

(* ------------------------------------------------------------------ *)
(** ** The steps on an empty vector *)

Lemma sorted_by_nil (r : list Student) :
  sorted_by greater score [] r -> r = [].
Proof. intros [Hp _]. apply Permutation_nil. exact Hp. Qed.

(** C4, as the program has it. Run on an empty vector, the body of a
    filter-and-print step that asks for the summary, as steps 1 and 2 do,
    prints a table with no row, the count 0 and the note; the body of the
    sort step prints a table with no row and, asking for no summary, neither
    a count nor the note; the custom step prints 0 students analyzed, the
    average N/A and an empty table with the count 0 and the note. Each hands
    the empty vector back, and none computes an average. Executed by
    [execute_processing_step], none of the four bodies runs on an empty
    vector: the header and the fixed notice are all that is printed. *)
Theorem empty_collection_reports (title : string) (list_title : text)
  (filter : Student -> bool) :
  sorted_by greater score [] (ranges_sort greater score []) ->
  core_logic (make_filter_print_step title list_title filter true) [] =
  ([], table_head list_title
       ++ [Println "{}" [Str (string_fill TABLE_WIDTH "-"%char)];
           Println "Total matching students: {}" [Size 0];
           no_students_note;
           Println "" []]) /\
  core_logic step4 [] =
  ([], [Println "--- Sorting Data by Score (Descending)... ---" [];
        Println "--- Data Sorted Successfully ---" [];
        Println "" []]
       ++ table_head (Str "List: All Students (Sorted by Score Descending)")
       ++ [Println "{}" [Str (string_fill TABLE_WIDTH "-"%char)];
           Println "" []]) /\
  ~ In no_students_note (snd (core_logic step4 [])) /\
  core_logic step3 [] =
  ([], [Println "--- Statistics ---" [];
        Println "Number of students analyzed: 0" [];
        Println "Calculated Average Score: N/A" [];
        Println "--------------------" []]
       ++ table_head (Str "List: Scoring >= Average (N/A)")
       ++ [Println "{}" [Str (string_fill TABLE_WIDTH "-"%char)];
           Println "Total matching students: {}" [Size 0];
           no_students_note;
           Println "" []]) /\
  Forall (fun step =>
            execute_processing_step step [] =
            ([], step_header step :: no_data_notice))
         processing_steps.
Proof.
  intros Hsort. apply sorted_by_nil in Hsort.
  assert (Hbody : core_logic step4 [] =
    ([], [Println "--- Sorting Data by Score (Descending)... ---" [];
          Println "--- Data Sorted Successfully ---" [];
          Println "" []]
         ++ table_head (Str "List: All Students (Sorted by Score Descending)")
         ++ [Println "{}" [Str (string_fill TABLE_WIDTH "-"%char)];
             Println "" []])).
  { simpl. unfold sort_and_print_action. rewrite Hsort. reflexivity. }
  split; [reflexivity |]. split; [exact Hbody |]. split.
  - rewrite Hbody. unfold no_students_note. intros H. none_of_these H.
  - split; [reflexivity |].
    repeat constructor.
Qed.

(* ------------------------------------------------------------------ *)
(** ** The generation loops *)

(** The engine, from state [e], yields within [n] further attempts a pair of
    draws that [generate_single_student] accepts: no fault, and a score in
    [MIN_SCORE, MAX_SCORE]. *)
Fixpoint accepted_within (n : nat) (e : engine) {struct n} : bool :=
  let (x, e1) := normal_distribution SCORE_MEAN_CENTER SCORE_STD_DEV e in
  let (k, e2) := uniform_int_distribution 1 20 e1 in
  if negb (k =? 1) && in_score_range x then true
  else match n with
       | O => false
       | S n' => accepted_within n' e2
       end.

Lemma to_int_small (z : Z) : 0 <= z <= INT_MAX -> to_int z = z.
Proof.
  unfold to_int, INT_MAX. intros H.
  rewrite Z.mod_small; lia.
Qed.

Lemma to_int_bound (z : Z) : to_int z <= INT_MAX.
Proof.
  unfold to_int, INT_MAX.
  pose proof (Z.mod_pos_bound (z + 2 ^ 31) (2 ^ 32)). lia.
Qed.

Lemma attempt_loop_mono (fuel fuel' : nat) (target_id : Z)
  (attempt_count : nat) (e : engine) (r : Student * stdout * engine) :
  (fuel <= fuel')%nat ->
  attempt_loop fuel target_id attempt_count e = Some r ->
  attempt_loop fuel' target_id attempt_count e = Some r.
Proof.
  revert fuel' attempt_count e r.
  induction fuel as [| fuel IH]; intros fuel' a e r Hle H;
    [discriminate H |].
  destruct fuel' as [| fuel']; [lia |]. simpl in *.
  destruct (generate_single_student target_id e) as [[s | err] e1];
    [exact H |].
  destruct (attempt_loop fuel target_id (S a) e1) as [[[s o] e2] |] eqn:Hrec;
    [| discriminate H].
  rewrite (IH fuel' _ _ _ ltac:(lia) Hrec). exact H.
Qed.

(** What the inner loop leaves: a student with the target id, whose score
    was drawn from the normal distribution and passed the range test. *)
Lemma attempt_loop_accepts (fuel : nat) (target_id : Z)
  (attempt_count : nat) (e : engine) (s : Student) (o : stdout)
  (e' : engine) :
  attempt_loop fuel target_id attempt_count e = Some (s, o, e') ->
  id s = target_id /\
  out_of_range_test (score s) = false /\
  exists e0,
    score s = fst (normal_distribution SCORE_MEAN_CENTER SCORE_STD_DEV e0).
Proof.
  revert attempt_count e o.
  induction fuel as [| fuel IH]; intros a e o H; [discriminate H |].
  simpl in H. rewrite generate_single_student_unfold in H.
  destruct (normal_distribution SCORE_MEAN_CENTER SCORE_STD_DEV e)
    as [x e1] eqn:Hx.
  destruct (uniform_int_distribution 1 20 e1) as [k e2].
  destruct (k =? 1);
    [| destruct (out_of_range_test x) eqn:Htest ].
  - destruct (attempt_loop fuel target_id (S a) e2) as [[[s' o'] e3] |]
      eqn:Hrec; [| discriminate H].
    injection H as -> _ ->. exact (IH _ _ _ Hrec).
  - destruct (attempt_loop fuel target_id (S a) e2) as [[[s' o'] e3] |]
      eqn:Hrec; [| discriminate H].
    injection H as -> _ ->. exact (IH _ _ _ Hrec).
  - injection H as <- _ _. simpl. repeat split; [exact Htest |].
    exists e. rewrite Hx. reflexivity.
Qed.

Lemma attempt_loop_S (fuel : nat) (target_id : Z) (attempt_count : nat)
  (e : engine) :
  attempt_loop (S fuel) target_id attempt_count e =
  let (result, e1) := generate_single_student target_id e in
  match result with
  | value s =>
      Some (s,
            [Println " [OK] Score: {:.2f} (Attempt {})"
               [Double (score s); Size (S attempt_count)]],
            e1)
  | unexpected error =>
      match attempt_loop fuel target_id (S attempt_count) e1 with
      | Some (s, printed, e2) =>
          Some (s,
                Print (nl ++ "    [!!) Attempt {} Failed: {}. Retrying...")
                  [Size (S attempt_count); error] :: printed,
                e2)
      | None => None
      end
  end.
Proof. reflexivity. Qed.

Lemma attempt_loop_terminates (n : nat) (target_id : Z)
  (attempt_count : nat) (e : engine) :
  accepted_within n e = true ->
  exists r, attempt_loop (S n) target_id attempt_count e = Some r.
Proof.
  revert attempt_count e.
  induction n as [| n IH]; intros a e H; simpl in H;
    rewrite attempt_loop_S, generate_single_student_unfold;
    destruct (normal_distribution SCORE_MEAN_CENTER SCORE_STD_DEV e)
      as [x e1];
    destruct (uniform_int_distribution 1 20 e1) as [k e2];
    destruct (k =? 1); simpl in H.
  - discriminate H.
  - destruct (in_score_range x) eqn:Hr; [| discriminate H].
    rewrite (in_score_range_passes x Hr). eexists. reflexivity.
  - destruct (IH (S a) e2 H) as [[[s o] e3] Hrec].
    rewrite Hrec. eexists. reflexivity.
  - destruct (in_score_range x) eqn:Hr.
    + rewrite (in_score_range_passes x Hr). eexists. reflexivity.
    + destruct (out_of_range_test x); [| eexists; reflexivity].
      destruct (IH (S a) e2 H) as [[[s o] e3] Hrec].
      rewrite Hrec. eexists. reflexivity.
Qed.

Lemma generation_loop_mono (fuel fuel' : nat) (num_students : nat)
  (students : list Student) (current_id_index : nat) (e : engine)
  (r : list Student * stdout * engine) :
  (fuel <= fuel')%nat ->
  generation_loop fuel num_students students current_id_index e = Some r ->
  generation_loop fuel' num_students students current_id_index e = Some r.
Proof.
  revert fuel' students current_id_index e r.
  induction fuel as [| fuel IH]; intros fuel' students idx e r Hle H.
  - destruct fuel'; simpl in *;
      destruct (List.length students <? num_students)%nat;
      try discriminate H; exact H.
  - destruct fuel' as [| fuel']; [lia |].
    cbn [generation_loop] in *.
    destruct (List.length students <? num_students)%nat; [| exact H].
    destruct (attempt_loop (S fuel) _ 0%nat e) as [[[s o] e1] |] eqn:Ha;
      [| discriminate H].
    rewrite (attempt_loop_mono (S fuel) (S fuel') _ _ _ _ ltac:(lia) Ha).
    destruct (generation_loop fuel num_students (students ++ [s]) (S idx) e1)
      as [[[st o'] e2] |] eqn:Hrec; [| discriminate H].
    rewrite (IH fuel' _ _ _ _ ltac:(lia) Hrec). exact H.
Qed.

(** The id the loop gives the student generated at index [k]. *)
Definition id_at (k : nat) : Z := to_int (Z.of_nat (k + 1)).

(** What the outer loop adds to the vector: one student per missing place,
    with the ids of the places in order, each accepted by the range test. *)
Lemma generation_loop_result (fuel : nat) (num_students : nat)
  (students : list Student) (current_id_index : nat) (e : engine)
  (students' : list Student) (o : stdout) (e' : engine) :
  generation_loop fuel num_students students current_id_index e
  = Some (students', o, e') ->
  (List.length students <= num_students)%nat ->
  exists added,
    students' = students ++ added /\
    List.length students' = num_students /\
    map id added =
    map id_at (seq current_id_index
                 (num_students - List.length students)) /\
    Forall (fun s =>
              out_of_range_test (score s) = false /\
              exists e0,
                score s =
                fst (normal_distribution SCORE_MEAN_CENTER SCORE_STD_DEV e0))
           added.
Proof.
  revert students current_id_index e o.
  induction fuel as [| fuel IH]; intros students idx e o H Hle;
    cbn [generation_loop] in H;
    destruct (Nat.ltb_spec (List.length students) num_students) as [Hlt | Hge];
    try discriminate H.
  - injection H as <- _ _. exists []. rewrite app_nil_r.
    replace (num_students - List.length students)%nat with 0%nat by lia.
    repeat split; [lia | constructor].
  - destruct (attempt_loop (S fuel) _ 0%nat e) as [[[s o1] e1] |] eqn:Ha;
      [| discriminate H].
    destruct (generation_loop fuel num_students (students ++ [s]) (S idx) e1)
      as [[[st o2] e2] |] eqn:Hrec; [| discriminate H].
    injection H as -> _ ->.
    apply attempt_loop_accepts in Ha as (Hid & Htest & Hdrawn).
    destruct (IH _ _ _ _ Hrec) as (added & Heq & Hlen & Hids & Hall).
    { rewrite length_app. simpl. lia. }
    exists (s :: added). rewrite Heq, <- app_assoc. simpl.
    repeat split.
    + rewrite Heq in Hlen. rewrite length_app in Hlen |- *.
      rewrite length_app in Hlen. simpl in *. lia.
    + rewrite length_app in Hids. simpl in Hids.
      replace (num_students - List.length students)%nat
        with (S (num_students - (List.length students + 1)))%nat by lia.
      simpl. rewrite Hids, Hid. reflexivity.
    + constructor; [split; assumption | exact Hall].
  - injection H as <- _ _. exists []. rewrite app_nil_r.
    replace (num_students - List.length students)%nat with 0%nat by lia.
    repeat split; [lia | constructor].
Qed.

Lemma generation_loop_terminates (num_students : nat) :
  (forall e, exists n, accepted_within n e = true) ->
  forall (missing : nat) (students : list Student) (current_id_index : nat)
         (e : engine),
    (num_students - List.length students = missing)%nat ->
    exists fuel r,
      generation_loop fuel num_students students current_id_index e = Some r.
Proof.
  intros Hfair. induction missing as [| missing IH];
    intros students idx e Hmiss.
  - exists 0%nat. simpl.
    destruct (Nat.ltb_spec (List.length students) num_students); [lia |].
    eexists. reflexivity.
  - destruct (Hfair e) as [n Hn].
    destruct (attempt_loop_terminates n (id_at idx) 0%nat e Hn)
      as [[[s o1] e1] Ha].
    destruct (IH (students ++ [s]) (S idx) e1) as (fuel & [[st o2] e2] & Hrec).
    { rewrite length_app. simpl. lia. }
    exists (S (Nat.max n fuel)). cbn [generation_loop].
    destruct (Nat.ltb_spec (List.length students) num_students); [| lia].
    fold (id_at idx).
    rewrite (attempt_loop_mono (S n) (S (Nat.max n fuel)) _ _ _ _
               ltac:(lia) Ha).
    rewrite (generation_loop_mono fuel (Nat.max n fuel) _ _ _ _ _
               ltac:(lia) Hrec).
    eexists. reflexivity.
Qed.

Lemma generate_students_terminates (num_students : nat) (e : engine) :
  (forall e0, exists n, accepted_within n e0 = true) ->
  exists fuel r, generate_students fuel num_students e = Some r.
Proof.
  intros Hfair.
  destruct (generation_loop_terminates num_students Hfair num_students
              [] 0%nat e) as (fuel & [[st o] e'] & H).
  { simpl. lia. }
  exists fuel. unfold generate_students. rewrite H. eexists. reflexivity.
Qed.

Lemma generate_students_result (fuel : nat) (num_students : nat)
  (e : engine) (students : list Student) (o : stdout) (e' : engine) :
  generate_students fuel num_students e = Some (students, o, e') ->
  List.length students = num_students /\
  map id students = map id_at (seq 0 num_students) /\
  Forall (fun s =>
            out_of_range_test (score s) = false /\
            exists e0,
              score s =
              fst (normal_distribution SCORE_MEAN_CENTER SCORE_STD_DEV e0))
         students.
Proof.
  unfold generate_students. intros H.
  destruct (generation_loop fuel num_students [] 0%nat e)
    as [[[st o1] e1] |] eqn:Hloop; [| discriminate H].
  injection H as <- _ _.
  apply generation_loop_result in Hloop as (added & Heq & Hlen & Hids & Hall);
    [| simpl; lia].
  simpl in Heq. subst st. simpl in Hids. rewrite Nat.sub_0_r in Hids.
  auto.
Qed.

(** A run that finishes gives the same result whatever fuel it was given. *)
Lemma generate_students_deterministic (fuel1 fuel2 : nat)
  (num_students : nat) (e : engine)
  (r1 r2 : list Student * stdout * engine) :
  generate_students fuel1 num_students e = Some r1 ->
  generate_students fuel2 num_students e = Some r2 ->
  r1 = r2.
Proof.
  unfold generate_students. intros H1 H2.
  destruct (generation_loop fuel1 num_students [] 0%nat e)
    as [[[st1 o1] e1] |] eqn:Hl1; [| discriminate H1].
  destruct (generation_loop fuel2 num_students [] 0%nat e)
    as [[[st2 o2] e2] |] eqn:Hl2; [| discriminate H2].
  apply (generation_loop_mono _ (Nat.max fuel1 fuel2)) in Hl1; [| lia].
  apply (generation_loop_mono _ (Nat.max fuel1 fuel2)) in Hl2; [| lia].
  rewrite Hl1 in Hl2. injection Hl2 as <- <- <-.
  congruence.
Qed.

Lemma id_at_seq (count : nat) :
  Z.of_nat count <= INT_MAX ->
  map id_at (seq 0 count) = map Z.of_nat (seq 1 count).
Proof.
  intros Hc. rewrite <- seq_shift, map_map. apply map_ext_in.
  intros k Hk. apply in_seq in Hk. unfold id_at.
  rewrite to_int_small; [f_equal; lia | lia].
Qed.

(** C1, as the program has it. For every count up to [INT_MAX], from every
    state of an engine that keeps yielding an accepted pair of draws after
    finitely many attempts and whose normal draws are numbers, the generation
    loops finish, and leave exactly [count] students whose ids are
    1, 2, ..., count in that order and whose scores are all in
    [MIN_SCORE, MAX_SCORE]; every run that finishes leaves these students. *)
Theorem generation_builds_dataset (count : nat) (e : engine) :
  Z.of_nat count <= INT_MAX ->
  (forall e0, exists n, accepted_within n e0 = true) ->
  (forall e0,
     is_nan (fst (normal_distribution SCORE_MEAN_CENTER SCORE_STD_DEV e0))
     = false) ->
  exists fuel students printed e',
    generate_students fuel count e = Some (students, printed, e') /\
    List.length students = count /\
    map id students = map Z.of_nat (seq 1 count) /\
    Forall (fun s => in_score_range (score s) = true) students /\
    (forall fuel' r,
       generate_students fuel' count e = Some r ->
       r = (students, printed, e')).
Proof.
  intros Hcount Hfair Hnan.
  destruct (generate_students_terminates count e Hfair)
    as (fuel & [[students printed] e'] & Hrun).
  exists fuel, students, printed, e'.
  destruct (generate_students_result _ _ _ _ _ _ Hrun)
    as (Hlen & Hids & Hall).
  split; [exact Hrun |]. split; [exact Hlen |].
  split; [rewrite Hids; apply id_at_seq; exact Hcount |]. split.
  - eapply Forall_impl; [| exact Hall].
    intros s [Htest [e0 Hdrawn]]. simpl in *.
    rewrite out_of_range_test_spec in Htest
      by (rewrite Hdrawn; apply Hnan).
    destruct (in_score_range (score s)); [reflexivity | discriminate Htest].
  - intros fuel' r Hr.
    exact (generate_students_deterministic _ _ _ _ _ _ Hr Hrun).
Qed.

(** Past [INT_MAX] students the ids no longer follow the count: no id is
    above [INT_MAX]. *)
Lemma generate_students_ids_wrap (fuel : nat) (count : nat) (e : engine)
  (students : list Student) (o : stdout) (e' : engine) :
  INT_MAX < Z.of_nat count ->
  generate_students fuel count e = Some (students, o, e') ->
  map id students <> map Z.of_nat (seq 1 count).
Proof.
  intros Hbig Hrun Heq.
  destruct (generate_students_result _ _ _ _ _ _ Hrun) as (_ & Hids & _).
  assert (Hin : In (Z.of_nat count) (map id students)).
  { rewrite Heq. apply in_map, in_seq. unfold INT_MAX in Hbig. lia. }
  rewrite Hids in Hin. apply in_map_iff in Hin as (k & Hk & _).
  unfold id_at in Hk. pose proof (to_int_bound (Z.of_nat (k + 1))). lia.
Qed.

(* ------------------------------------------------------------------ *)
(** ** The order of doubles, and the predicates built on it *)

Ltac order_cases :=
  repeat match goal with
         | H : Some _ = Some _ |- _ => injection H as H
         | H : context [(?x ?= ?y)%Z] |- _ =>
             destruct (Z.compare_spec x y); subst
         | |- context [(?x ?= ?y)%Z] =>
             destruct (Z.compare_spec x y); subst
         | H : context [PosDef.Pos.compare_cont Eq ?x ?y] |- _ =>
             change (PosDef.Pos.compare_cont Eq x y)
               with (Pos.compare x y) in H;
             destruct (Pos.compare_spec x y); subst
         | |- context [PosDef.Pos.compare_cont Eq ?x ?y] =>
             change (PosDef.Pos.compare_cont Eq x y) with (Pos.compare x y);
             destruct (Pos.compare_spec x y); subst
         end;
  simpl in *; try discriminate; try reflexivity; try lia.

(** Below-or-equal chains compose: the comparison of the ends is [Lt] unless
    both links are [Eq]. *)
Lemma SFcompare_trans (a b c : spec_float) (x y : comparison) :
  SFcompare a b = Some x -> SFcompare b c = Some y ->
  x <> Gt -> y <> Gt ->
  SFcompare a c = Some (match x with Eq => y | _ => x end).
Proof.
  intros H1 H2 Hx Hy.
  destruct x, y; try congruence;
    destruct a as [sa | sa | | sa ma ea], b as [sb | sb | | sb mb eb],
             c as [sc | sc | | sc mc ec];
    simpl in *; try discriminate;
    repeat match goal with s : bool |- _ => destruct s end;
    simpl in *; try discriminate; try reflexivity; order_cases.
Qed.

Lemma ltb_compare (a b : float) :
  (a <? b)%float = true <-> SFcompare (Prim2SF a) (Prim2SF b) = Some Lt.
Proof.
  rewrite FloatAxioms.ltb_spec. unfold SFltb.
  destruct (SFcompare (Prim2SF a) (Prim2SF b)) as [[| |] |];
    split; intros H; try reflexivity; discriminate H.
Qed.

Lemma ltb_trans (a b c : float) :
  (a <? b)%float = true -> (b <? c)%float = true -> (a <? c)%float = true.
Proof.
  rewrite !ltb_compare. intros H1 H2.
  apply (SFcompare_trans _ _ _ _ _ H1 H2); discriminate.
Qed.

Lemma ltb_asym (a b : float) :
  (a <? b)%float = true -> (b <? a)%float = false.
Proof.
  intros H. destruct (b <? a)%float eqn:Hba; [| reflexivity].
  apply ltb_compare in H. apply ltb_compare in Hba.
  rewrite SFcompare_antisym, H in Hba. discriminate Hba.
Qed.

(** Two numbers neither of which is below the other compare equal. *)
Lemma incomparable_compare (a b : float) :
  is_nan a = false -> is_nan b = false ->
  (a <? b)%float = false -> (b <? a)%float = false ->
  SFcompare (Prim2SF a) (Prim2SF b) = Some Eq.
Proof.
  intros Ha Hb Hab Hba.
  destruct (SFcompare_defined (Prim2SF a) (Prim2SF b)) as [[| |] Hc];
    try (apply is_nan_false_spec; assumption).
  - exact Hc.
  - apply ltb_compare in Hc. rewrite Hc in Hab. discriminate Hab.
  - assert (Hc' : SFcompare (Prim2SF b) (Prim2SF a) = Some Lt)
      by (rewrite SFcompare_antisym, Hc; reflexivity).
    apply ltb_compare in Hc'. rewrite Hc' in Hba. discriminate Hba.
Qed.

Lemma compare_eq_not_ltb (a b : float) :
  SFcompare (Prim2SF a) (Prim2SF b) = Some Eq -> (a <? b)%float = false.
Proof.
  intros H. rewrite FloatAxioms.ltb_spec. unfold SFltb. rewrite H.
  reflexivity.
Qed.

(** X10. The reports of steps 1 and 2 are disjoint: no score is both above
    [EXCELLENT_THRESHOLD] and below [PASS_THRESHOLD], so whatever the data,
    no student has a row in both tables. *)
Theorem excellent_and_failing_disjoint (s : Student)
  (data : list Student) :
  excellent_filter s && failing_filter s = false /\
  ~ (In (table_row s) (snd (core_logic step1 data)) /\
     In (table_row s) (snd (core_logic step2 data))).
Proof.
  assert (Hboth : excellent_filter s && failing_filter s = false).
  { unfold excellent_filter, failing_filter.
    destruct (EXCELLENT_THRESHOLD <? score s)%float eqn:H1;
      [| reflexivity].
    destruct (score s <? PASS_THRESHOLD)%float eqn:H2; [| reflexivity].
    pose proof (ltb_trans _ _ _ H1 H2) as H. vm_compute in H.
    discriminate H. }
  split; [exact Hboth |].
  simpl. rewrite !table_row_in, !filter_In. intros [[_ H1] [_ H2]].
  rewrite H1, H2 in Hboth. discriminate Hboth.
Qed.

(** X11. On students whose scores are numbers, the order the sort step
    sorts by ([std::greater] on the scores) is a strict weak ordering, as
    the library sort requires: it is irreflexive, asymmetric and transitive,
    and being unordered either way is transitive. *)
Theorem sort_order_strict_weak (a b c : Student) :
  is_nan (score a) = false ->
  is_nan (score b) = false ->
  is_nan (score c) = false ->
  let before x y := greater (score x) (score y) in
  before a a = false /\
  (before a b = true -> before b a = false) /\
  (before a b = true -> before b c = true -> before a c = true) /\
  (before a b = false -> before b a = false ->
   before b c = false -> before c b = false ->
   before a c = false /\ before c a = false).
Proof.
  intros Ha Hb Hc. cbv zeta. unfold greater. repeat split.
  - destruct (score a <? score a)%float eqn:H; [| reflexivity].
    rewrite (ltb_asym _ _ H) in H. discriminate H.
  - intros H. apply ltb_asym. exact H.
  - intros H1 H2. exact (ltb_trans _ _ _ H2 H1).
  - pose proof (incomparable_compare _ _ Hb Ha H H0) as E1.
    pose proof (incomparable_compare _ _ Hc Hb H1 H2) as E2.
    apply compare_eq_not_ltb.
    apply (SFcompare_trans _ _ _ _ _ E2 E1); discriminate.
  - pose proof (incomparable_compare _ _ Ha Hb H0 H) as E1.
    pose proof (incomparable_compare _ _ Hb Hc H2 H1) as E2.
    apply compare_eq_not_ltb.
    apply (SFcompare_trans _ _ _ _ _ E1 E2); discriminate.
Qed.

(* ------------------------------------------------------------------ *)
(** ** What the tables show *)

Definition count_line (n : nat) : out :=
  Println "Total matching students: {}" [Size n].

Lemma count_line_in (list_title : text) (student_range : list Student)
  (print_summary_count : bool) (n : nat) :
  In (count_line n)
     (print_student_table list_title student_range print_summary_count)
  <-> print_summary_count = true /\ n = List.length student_range.
Proof.
  rewrite print_student_table_spec, !in_app_iff, in_map_iff.
  unfold table_footer, count_line. split.
  - intros [H | [[t [Ht _]] | H]].
    + none_of_these H.
    + discriminate Ht.
    + destruct print_summary_count;
        [destruct (List.length student_range =? 0)%nat |];
        simpl in H;
        repeat (destruct H as [H | H];
                [first [discriminate H
                       | injection H as <-; split; reflexivity] |]);
        contradiction H.
  - intros [-> ->]. right. right. simpl. right. left. reflexivity.
Qed.

Lemma no_students_note_in (list_title : text) (student_range : list Student)
  (print_summary_count : bool) :
  In no_students_note
     (print_student_table list_title student_range print_summary_count)
  <-> print_summary_count = true /\ student_range = [].
Proof.
  rewrite print_student_table_spec, !in_app_iff, in_map_iff.
  unfold table_footer, no_students_note. split.
  - intros [H | [[t [Ht _]] | H]].
    + none_of_these H.
    + discriminate Ht.
    + destruct print_summary_count; [| none_of_these H].
      destruct student_range; [split; reflexivity | none_of_these H].
  - intros [-> ->]. right. right. simpl. right. right. left. reflexivity.
Qed.

Lemma filter_nil_iff (f : Student -> bool) (l : list Student) :
  List.filter f l = [] <-> forall s, In s l -> f s = false.
Proof.
  induction l as [| x l IH]; simpl.
  - split; [intros _ s [] | reflexivity].
  - destruct (f x) eqn:Hx; split.
    + discriminate.
    + intros H. rewrite (H x (or_introl eq_refl)) in Hx. discriminate Hx.
    + intros H s [<- | Hs]; [exact Hx | apply IH; assumption].
    + intros H. apply IH. intros s Hs. apply H. right. exact Hs.
Qed.

Lemma nth_error_last_line (l : stdout) (x : out) :
  nth_error (l ++ [x]) (List.length (l ++ [x]) - 1) = Some x.
Proof.
  rewrite length_app. simpl.
  rewrite nth_error_app2 by lia.
  replace (List.length l + 1 - 1 - List.length l)%nat with 0%nat by lia.
  reflexivity.
Qed.

(** X1. A table is three heading lines, then one row per student of the
    range in the order of the range, then the rule; when the summary is asked
    for, the next line is the count, which is the number of rows printed. The
    count line appears only when the summary is asked for, and the note
    exactly when it is asked for and no row was printed. The table always
    ends with an empty line. *)
Theorem print_student_table_lines (list_title : text)
  (student_range : list Student) (print_summary_count : bool) :
  let table :=
    print_student_table list_title student_range print_summary_count in
  let rows := List.length student_range in
  (forall i s, nth_error student_range i = Some s ->
               nth_error table (3 + i) = Some (table_row s)) /\
  nth_error table (3 + rows)
  = Some (Println "{}" [Str (string_fill TABLE_WIDTH "-"%char)]) /\
  (print_summary_count = true ->
   nth_error table (4 + rows) = Some (count_line rows)) /\
  (forall n, In (count_line n) table
             <-> print_summary_count = true /\ n = rows) /\
  (In no_students_note table
   <-> print_summary_count = true /\ student_range = []) /\
  List.length table
  = (5 + rows
     + (if print_summary_count
        then (if (rows =? 0)%nat then 2 else 1)
        else 0))%nat /\
  nth_error table (List.length table - 1) = Some (Println "" []).
Proof.
  cbv zeta.
  split; [| split; [| split; [| split; [| split; [| split]]]]].
  - intros i s Hi. rewrite print_student_table_spec.
    rewrite nth_error_app2 by (change (List.length (table_head list_title)) with 3%nat; lia).
    replace (3 + i - List.length (table_head list_title))%nat with i
      by (change (List.length (table_head list_title)) with 3%nat; lia).
    rewrite nth_error_app1
      by (rewrite length_map; apply nth_error_Some; congruence).
    rewrite nth_error_map, Hi. reflexivity.
  - rewrite print_student_table_spec.
    rewrite nth_error_app2 by (change (List.length (table_head list_title)) with 3%nat; lia).
    rewrite nth_error_app2 by (rewrite length_map; change (List.length (table_head list_title)) with 3%nat; lia).
    rewrite length_map.
    replace (3 + List.length student_range
             - List.length (table_head list_title)
             - List.length student_range)%nat with 0%nat by (change (List.length (table_head list_title)) with 3%nat; lia).
    reflexivity.
  - intros ->. rewrite print_student_table_spec.
    rewrite nth_error_app2 by (change (List.length (table_head list_title)) with 3%nat; lia).
    rewrite nth_error_app2 by (rewrite length_map; change (List.length (table_head list_title)) with 3%nat; lia).
    rewrite length_map.
    replace (4 + List.length student_range
             - List.length (table_head list_title)
             - List.length student_range)%nat with 1%nat by (change (List.length (table_head list_title)) with 3%nat; lia).
    reflexivity.
  - intros n. apply count_line_in.
  - apply no_students_note_in.
  - rewrite print_student_table_spec, !length_app, length_map.
    unfold table_footer.
    destruct print_summary_count;
      [destruct (List.length student_range =? 0)%nat |]; simpl; lia.
  - rewrite print_student_table_spec. unfold table_footer.
    rewrite !app_assoc. apply nth_error_last_line.
Qed.

(** X2. The table of a filter-and-print step has a row for a student exactly
    when the student is in the data and passes the filter; when the summary
    is asked for, the count it prints is the number of students of the data
    that pass the filter, and the note is printed exactly when none does. *)
Theorem filter_print_step_report (title : string) (list_title : text)
  (filter : Student -> bool) (print_summary : bool) (data : list Student) :
  let printed :=
    snd (core_logic
           (make_filter_print_step title list_title filter print_summary)
           data) in
  (forall s, In (table_row s) printed <-> In s data /\ filter s = true) /\
  (forall n, In (count_line n) printed
             <-> print_summary = true
                 /\ n = List.length (List.filter filter data)) /\
  (In no_students_note printed
   <-> print_summary = true /\ forall s, In s data -> filter s = false).
Proof.
  cbv zeta. simpl. split; [| split].
  - intros s. rewrite table_row_in. apply filter_In.
  - intros n. apply count_line_in.
  - rewrite no_students_note_in, filter_nil_iff. reflexivity.
Qed.

Lemma above_average_logic_nonempty (data : list Student) :
  data <> [] ->
  above_average_logic data =
  [Println "--- Statistics ---" [];
   Println "Number of students analyzed: {}" [Size (List.length data)];
   Println "Calculated Average Score: {:.2f}" [Double (average_of data)];
   Println "--------------------" []]
  ++ print_student_table
       (Format "List: Scoring >= Average ({:.2f})"
          [Double (average_of data)])
       (List.filter (fun s => (average_of data <=? score s)%float) data)
       true.
Proof.
  destruct data as [| s l]; [intros H; contradiction H; reflexivity |].
  intros _. reflexivity.
Qed.

(** X3. The custom step prints "N/A" for the average exactly when the data
    is empty. On data that is not empty it prints the number of students of
    the data and their average (the sum of the scores from 0.0 in order,
    divided by their number). In every case its table has a row for a
    student exactly when the student is in the data and scores at least that
    average. *)
Theorem above_average_report (data : list Student) :
  let printed := above_average_logic data in
  (In (Println "Calculated Average Score: N/A" []) printed <-> data = []) /\
  (data <> [] ->
   nth_error printed 1
   = Some (Println "Number of students analyzed: {}"
             [Size (List.length data)]) /\
   nth_error printed 2
   = Some (Println "Calculated Average Score: {:.2f}"
             [Double (average_of data)])) /\
  (forall s, In (table_row s) printed
             <-> In s data /\ (average_of data <=? score s)%float = true).
Proof.
  cbv zeta. destruct data as [| s0 l].
  - split; [| split].
    + split; [reflexivity |]. intros _. simpl. right. right. left.
      reflexivity.
    + intros H. contradiction H. reflexivity.
    + intros s. split.
      * intros H. exfalso. none_of_these H.
      * intros [[] _].
  - rewrite above_average_logic_nonempty by discriminate.
    set (data := s0 :: l). split; [| split].
    + split; [| discriminate]. intros H. exfalso.
      apply in_app_iff in H as [H | H]; [none_of_these H |].
      rewrite print_student_table_spec, !in_app_iff, in_map_iff in H.
      destruct H as [H | [[t [Ht _]] | H]];
        [none_of_these H | discriminate Ht |].
      unfold table_footer in H.
      destruct (List.length _ =? 0)%nat; none_of_these H.
    + intros _. split; reflexivity.
    + intros s. rewrite in_app_iff, table_row_in, filter_In. split.
      * intros [H | H]; [exfalso; none_of_these H | exact H].
      * intros H. right. exact H.
Qed.

(* ------------------------------------------------------------------ *)
(** ** The sort step and the configured steps on any data *)

(** X4. Whatever the data, the sort step prints neither a count nor the
    note. When the library sort delivers what it guarantees on the data, the
    vector the step leaves is a rearrangement of the data in which no student
    scores below a later one, the rows of its table are the students of that
    vector in its order, and a student has a row exactly when the student is
    in the data. *)
Theorem sort_step_report (data : list Student) :
  let left := fst (core_logic step4 data) in
  let printed := snd (core_logic step4 data) in
  (forall n, ~ In (count_line n) printed) /\
  ~ In no_students_note printed /\
  (sorted_by greater score data (ranges_sort greater score data) ->
   Permutation data left /\
   List.length left = List.length data /\
   StronglySorted (fun a b => (score a <? score b)%float = false) left /\
   (forall i s, nth_error left i = Some s ->
                nth_error printed (6 + i) = Some (table_row s)) /\
   (forall s, In (table_row s) printed <-> In s data)).
Proof.
  cbv zeta. simpl. unfold sort_and_print_action. simpl.
  set (sorted := ranges_sort greater score data).
  set (title := Str "List: All Students (Sorted by Score Descending)").
  split; [| split].
  - intros n [H | [H | [H | H]]]; try discriminate H.
    apply count_line_in in H as [H _]. discriminate H.
  - intros [H | [H | [H | H]]]; try discriminate H.
    apply no_students_note_in in H as [H _]. discriminate H.
  - intros [Hperm Hsorted].
    split; [exact Hperm |].
    split; [symmetry; apply Permutation_length; exact Hperm |].
    split; [exact Hsorted |]. split.
    + intros i s Hi.
      change (nth_error (print_student_table title sorted false) (3 + i)
              = Some (table_row s)).
      rewrite print_student_table_spec.
      rewrite nth_error_app2
        by (change (List.length (table_head title)) with 3%nat; lia).
      replace (3 + i - List.length (table_head title))%nat with i
        by (change (List.length (table_head title)) with 3%nat; lia).
      rewrite nth_error_app1
        by (rewrite length_map; apply nth_error_Some; congruence).
      rewrite nth_error_map, Hi. reflexivity.
    + intros s. split.
      * intros [H | [H | [H | H]]]; try discriminate H.
        apply table_row_in in H.
        apply (Permutation_in _ (Permutation_sym Hperm)). exact H.
      * intros H. right. right. right. apply table_row_in.
        apply (Permutation_in _ Hperm). exact H.
Qed.

Lemma first_steps_read_only : Forall read_only [step1; step2; step3].
Proof. repeat constructor; intros d; reflexivity. Qed.

Lemma execute_step4 (data : list Student) :
  execute_processing_step step4 data =
  if vector_empty data then ([], step_header step4 :: no_data_notice)
  else (ranges_sort greater score data,
        step_header step4 :: snd (core_logic step4 data)).
Proof. destruct data; reflexivity. Qed.

Lemma processing_steps_final (data : list Student) :
  fst (run_steps processing_steps data) =
  if vector_empty data then [] else ranges_sort greater score data.
Proof.
  change processing_steps with ([step1; step2; step3] ++ [step4]).
  rewrite run_steps_app.
  destruct (run_steps_read_only [step1; step2; step3] data
              first_steps_read_only) as [-> _].
  cbn [fst run_steps]. rewrite execute_step4.
  destruct (vector_empty data); reflexivity.
Qed.

(** X5. In the configured run every one of the four steps is handed the
    data as generated: the sort comes last, so the two filtered reports and
    the average are computed on the unsorted data. The vector left is the
    library sort of the data, or the empty vector when the data is empty. On
    data that is not empty the output is, for each step in turn, its header
    followed by what its body prints on the data. *)
Theorem configured_pipeline_effect (data : list Student) :
  collections_seen processing_steps data = [data; data; data; data] /\
  fst (run_steps processing_steps data)
  = (if vector_empty data then [] else ranges_sort greater score data) /\
  (data <> [] ->
   snd (run_steps processing_steps data) =
   (step_header step1 :: snd (core_logic step1 data))
   ++ (step_header step2 :: snd (core_logic step2 data))
   ++ (step_header step3 :: snd (core_logic step3 data))
   ++ (step_header step4 :: snd (core_logic step4 data))).
Proof.
  split; [| split].
  - change processing_steps with ([step1; step2; step3] ++ [step4]).
    rewrite collections_seen_app.
    destruct (run_steps_read_only [step1; step2; step3] data
                first_steps_read_only) as [-> ->].
    reflexivity.
  - apply processing_steps_final.
  - destruct data as [| s l]; [intros H; contradiction H; reflexivity |].
    intros _. cbn -[print_student_table above_average_logic].
    rewrite ?app_nil_r. reflexivity.
Qed.

(* ------------------------------------------------------------------ *)
(** ** More on the generation loops and [main] *)

Definition ok_line (s : Student) (attempt_count : nat) : out :=
  Println " [OK] Score: {:.2f} (Attempt {})"
    [Double (score s); Size attempt_count].

Definition failed_line (attempt_count : nat) (error : text) : out :=
  Print (nl ++ "    [!!) Attempt {} Failed: {}. Retrying...")
    [Size attempt_count; error].

(** X6. What the retry loop prints for one student: a line for each failed
    attempt, numbered from the attempt count on without a gap and carrying
    one of the generator's two messages, and then one line for the accepted
    attempt, with the score of the student returned and the number of the
    attempt. The attempts made are the lines printed, and never more than
    the fuel. *)
Theorem attempt_loop_log (fuel : nat) (target_id : Z) (attempt_count : nat)
  (e : engine) (s : Student) (printed : stdout) (e' : engine) :
  attempt_loop fuel target_id attempt_count e = Some (s, printed, e') ->
  exists failures,
    printed
    = failures ++ [ok_line s (attempt_count + List.length printed)] /\
    (List.length printed <= fuel)%nat /\
    (forall i line,
       nth_error failures i = Some line ->
       exists error,
         line = failed_line (attempt_count + i + 1) error /\
         (error = injected_message \/
          exists x, error = out_of_range_message x)).
Proof.
  revert attempt_count e printed.
  induction fuel as [| fuel IH]; intros a e printed H; [discriminate H |].
  rewrite attempt_loop_S, generate_single_student_unfold in H.
  destruct (normal_distribution SCORE_MEAN_CENTER SCORE_STD_DEV e)
    as [x e1].
  destruct (uniform_int_distribution 1 20 e1) as [k e2].
  assert (Hfail : forall error,
            error = injected_message \/
            (exists x0, error = out_of_range_message x0) ->
            match attempt_loop fuel target_id (S a) e2 with
            | Some (s0, printed0, e3) =>
                Some (s0, failed_line (S a) error :: printed0, e3)
            | None => None
            end = Some (s, printed, e') ->
            exists failures,
              printed = failures ++ [ok_line s (a + List.length printed)] /\
              (List.length printed <= S fuel)%nat /\
              (forall i line,
                 nth_error failures i = Some line ->
                 exists error0,
                   line = failed_line (a + i + 1) error0 /\
                   (error0 = injected_message \/
                    exists x0, error0 = out_of_range_message x0))).
  { intros error Herror Hrec.
    destruct (attempt_loop fuel target_id (S a) e2) as [[[s0 o0] e3] |]
      eqn:Hloop; [| discriminate Hrec].
    injection Hrec as -> <- ->.
    destruct (IH _ _ _ Hloop) as (failures & Heq & Hlen & Hlines).
    exists (failed_line (S a) error :: failures). split; [| split].
    - simpl. rewrite Heq at 1.
      replace (S a + List.length o0)%nat
        with (a + S (List.length o0))%nat by lia.
      reflexivity.
    - simpl. lia.
    - intros [| i] line Hline; simpl in Hline.
      + injection Hline as <-. exists error. split; [| exact Herror].
        f_equal. lia.
      + destruct (Hlines i line Hline) as (error0 & -> & Herror0).
        exists error0. split; [f_equal; lia | exact Herror0]. }
  destruct (k =? 1); [| destruct (out_of_range_test x)].
  - apply (Hfail injected_message); [left; reflexivity | exact H].
  - apply (Hfail (out_of_range_message x)); [right; eexists; reflexivity |].
    exact H.
  - injection H as <- <- <-. exists []. simpl. split; [| split].
    + replace (a + 1)%nat with (S a) by lia. reflexivity.
    + lia.
    + intros [| i] line Hline; discriminate Hline.
Qed.

Lemma attempt_loop_faulting (fuel : nat) (target_id : Z)
  (attempt_count : nat) (e : engine) :
  (forall e0, fst (uniform_int_distribution 1 20 e0) = 1) ->
  attempt_loop fuel target_id attempt_count e = None.
Proof.
  intros Hfault. revert attempt_count e.
  induction fuel as [| fuel IH]; intros a e; [reflexivity |].
  rewrite attempt_loop_S, generate_single_student_unfold.
  destruct (normal_distribution SCORE_MEAN_CENTER SCORE_STD_DEV e)
    as [x e1].
  specialize (Hfault e1).
  destruct (uniform_int_distribution 1 20 e1) as [k e2].
  simpl in Hfault. subst k. simpl. rewrite IH. reflexivity.
Qed.

(** X7. The retry loop has no limit and skips no id: on a source whose
    fault draw is 1 at every attempt, generating even one student does not
    finish, whatever the fuel. *)
Theorem generation_never_gives_up (count : nat) (e : engine) :
  (forall e0, fst (uniform_int_distribution 1 20 e0) = 1) ->
  (0 < count)%nat ->
  forall fuel, generate_students fuel count e = None.
Proof.
  intros Hfault Hcount fuel. unfold generate_students.
  destruct fuel as [| fuel]; cbn [generation_loop List.length];
    destruct (Nat.ltb_spec 0 count) as [_ | Hge]; try lia;
    [reflexivity |].
  rewrite (attempt_loop_faulting _ _ _ _ Hfault). reflexivity.
Qed.

Lemma attempt_loop_deterministic (fuel1 fuel2 : nat) (target_id : Z)
  (attempt_count : nat) (e : engine)
  (r1 r2 : Student * stdout * engine) :
  attempt_loop fuel1 target_id attempt_count e = Some r1 ->
  attempt_loop fuel2 target_id attempt_count e = Some r2 ->
  r1 = r2.
Proof.
  intros H1 H2.
  apply (attempt_loop_mono _ (Nat.max fuel1 fuel2)) in H1; [| lia].
  apply (attempt_loop_mono _ (Nat.max fuel1 fuel2)) in H2; [| lia].
  congruence.
Qed.

(** Asking for one more student: the loop runs as before, and then once
    more from where it ended. *)
Lemma generation_loop_extend (fuel : nat) (num_students : nat) :
  forall (students : list Student) (current_id_index : nat) (e : engine)
         (st : list Student) (o : stdout) (e1 : engine)
         (fuel' : nat) (st' : list Student) (o' : stdout) (e2 : engine),
    generation_loop fuel num_students students current_id_index e
    = Some (st, o, e1) ->
    (List.length students <= num_students)%nat ->
    generation_loop fuel' (S num_students) students current_id_index e
    = Some (st', o', e2) ->
    exists s printed,
      st' = st ++ [s] /\
      attempt_loop fuel'
        (id_at (current_id_index + (num_students - List.length students)))
        0%nat e1
      = Some (s, printed, e2).
Proof.
  induction fuel as [| fuel IH];
    intros students idx e st o e1 fuel' st' o' e2 H Hle H';
    cbn [generation_loop] in H;
    destruct (Nat.ltb_spec (List.length students) num_students)
      as [Hlt | Hge];
    try discriminate H.
  - (* nothing was missing: the extra round is the only one *)
    injection H as <- _ <-.
    destruct fuel' as [| fuel'']; cbn [generation_loop] in H';
      destruct (Nat.ltb_spec (List.length students) (S num_students));
      try lia; try discriminate H'.
    fold (id_at idx) in H'.
    destruct (attempt_loop (S fuel'') (id_at idx) 0%nat e)
      as [[[s o1] ea] |] eqn:Ha; [| discriminate H'].
    assert (Hlen : List.length (students ++ [s]) = S num_students)
      by (rewrite length_app; simpl; lia).
    destruct fuel'' as [| fuel3]; cbn [generation_loop] in H';
      rewrite Hlen, Nat.ltb_irrefl in H';
      injection H' as <- _ <-;
      exists s, o1;
      (split; [reflexivity |]);
      replace (idx + (num_students - List.length students))%nat with idx
        by lia;
      exact Ha.
  - fold (id_at idx) in H.
    destruct (attempt_loop (S fuel) (id_at idx) 0%nat e)
      as [[[s1 o1] ea] |] eqn:Ha; [| discriminate H].
    destruct (generation_loop fuel num_students (students ++ [s1]) (S idx) ea)
      as [[[st0 o2] eb] |] eqn:Hrec; [| discriminate H].
    injection H as -> _ ->.
    destruct fuel' as [| fuel'']; cbn [generation_loop] in H';
      destruct (Nat.ltb_spec (List.length students) (S num_students));
      try lia; try discriminate H'.
    fold (id_at idx) in H'.
    destruct (attempt_loop (S fuel'') (id_at idx) 0%nat e)
      as [[[s1' o1'] ea'] |] eqn:Ha'; [| discriminate H'].
    pose proof (attempt_loop_deterministic _ _ _ _ _ _ _ Ha Ha') as Hsame.
    injection Hsame as <- _ <-.
    destruct (generation_loop fuel'' (S num_students) (students ++ [s1])
                (S idx) ea) as [[[st0' o2'] eb'] |] eqn:Hrec';
      [| discriminate H'].
    injection H' as -> _ ->.
    destruct (IH _ _ _ _ _ _ _ _ _ _ Hrec ltac:(rewrite length_app; simpl; lia)
                Hrec') as (s & printed & Heq & Hlast).
    exists s, printed. split; [exact Heq |].
    rewrite length_app in Hlast. simpl in Hlast.
    replace (idx + (num_students - List.length students))%nat
      with (S idx + (num_students - (List.length students + 1)))%nat by lia.
    apply (attempt_loop_mono fuel''); [lia | exact Hlast].
  - injection H as <- _ <-.
    destruct fuel' as [| fuel'']; cbn [generation_loop] in H';
      destruct (Nat.ltb_spec (List.length students) (S num_students));
      try lia; try discriminate H'.
    fold (id_at idx) in H'.
    destruct (attempt_loop (S fuel'') (id_at idx) 0%nat e)
      as [[[s o1] ea] |] eqn:Ha; [| discriminate H'].
    assert (Hlen : List.length (students ++ [s]) = S num_students)
      by (rewrite length_app; simpl; lia).
    destruct fuel'' as [| fuel3]; cbn [generation_loop] in H';
      rewrite Hlen, Nat.ltb_irrefl in H';
      injection H' as <- _ <-;
      exists s, o1;
      (split; [reflexivity |]);
      replace (idx + (num_students - List.length students))%nat with idx
        by lia;
      exact Ha.
Qed.

(** X8. The students generated do not depend on how many are asked for:
    a finished run for one student more leaves the students of the run for
    the count, followed by one student, the one the retry loop yields for the
    next id from the engine the shorter run ended with. *)
Theorem generation_prefix_stable (fuel fuel' : nat) (count : nat)
  (e : engine) (students students' : list Student) (printed printed' : stdout)
  (e1 e2 : engine) :
  generate_students fuel count e = Some (students, printed, e1) ->
  generate_students fuel' (S count) e = Some (students', printed', e2) ->
  exists s attempts,
    students' = students ++ [s] /\
    attempt_loop fuel' (id_at count) 0%nat e1 = Some (s, attempts, e2).
Proof.
  unfold generate_students. intros H H'.
  destruct (generation_loop fuel count [] 0%nat e)
    as [[[st o] ea] |] eqn:Hl; [| discriminate H].
  destruct (generation_loop fuel' (S count) [] 0%nat e)
    as [[[st' o'] eb] |] eqn:Hl'; [| discriminate H'].
  injection H as <- _ <-. injection H' as <- _ <-.
  destruct (generation_loop_extend _ _ _ _ _ _ _ _ _ _ _ _ Hl
              ltac:(simpl; lia) Hl') as (s & attempts & Heq & Hlast).
  exists s, attempts. split; [exact Heq |].
  simpl in Hlast. rewrite Nat.sub_0_r in Hlast. exact Hlast.
Qed.

(** X9. From an engine that keeps yielding an accepted pair of draws after
    finitely many attempts, [main] finishes: it generates [NUM_STUDENTS]
    students with the ids 1, ..., 30 in order, leaves the library sort of
    them in the vector, prints the generation log, the processing banner, the
    output of the four steps on the students as generated and the closing
    banner, and leaves the engine as the generation left it. *)
Theorem main_outcome (e : engine) :
  (forall e0, exists n, accepted_within n e0 = true) ->
  exists fuel generated log e',
    generate_students fuel NUM_STUDENTS e = Some (generated, log, e') /\
    List.length generated = 30%nat /\
    map id generated = map Z.of_nat (seq 1 30) /\
    main fuel e =
    Some (ranges_sort greater score generated,
          log
          ++ [Println (nl ++ "========== Processing Student Data ==========")
                []]
          ++ snd (run_steps processing_steps generated)
          ++ [Println (nl ++ "========== Processing Complete ==========") []],
          e').
Proof.
  intros Hfair.
  destruct (generate_students_terminates NUM_STUDENTS e Hfair)
    as (fuel & [[generated log] e'] & Hrun).
  exists fuel, generated, log, e'.
  destruct (generate_students_result _ _ _ _ _ _ Hrun) as (Hlen & Hids & _).
  split; [exact Hrun |]. split; [exact Hlen |].
  split; [rewrite Hids; apply id_at_seq; vm_compute; discriminate |].
  unfold main. rewrite Hrun.
  pose proof (processing_steps_final generated) as Hfinal.
  destruct (run_steps processing_steps generated) as [final out].
  simpl in Hfinal. subst final.
  destruct generated; [discriminate Hlen | reflexivity].
Qed.

End Program.

(* ------------------------------------------------------------------ *)
(** ** The program on the sample library parts *)

Lemma accepted_within_unfold (n : nat) (e : script_engine) :
  accepted_within script_engine script_normal script_uniform n e =
  let (x, e1) := script_normal SCORE_MEAN_CENTER SCORE_STD_DEV e in
  let (k, e2) := script_uniform 1 20 e1 in
  if negb (k =? 1) && in_score_range x then true
  else match n with
       | O => false
       | S n' =>
           accepted_within script_engine script_normal script_uniform n' e2
       end.
Proof. destruct n; reflexivity. Qed.

(** Every script runs out, and the exhausted script is accepted. *)
Lemma script_engine_accepted (n : nat) (e : script_engine) :
  (List.length e <= n)%nat ->
  accepted_within script_engine script_normal script_uniform n e = true.
Proof.
  revert e. induction n as [| n IH]; intros e Hlen;
    rewrite accepted_within_unfold.
  - destruct e; [reflexivity | simpl in Hlen; lia].
  - destruct e as [| d e]; [reflexivity |].
    assert (Hstep : forall x e2,
              (List.length e2 <= n)%nat ->
              (if in_score_range x then true
               else accepted_within script_engine script_normal
                      script_uniform n e2) = true).
    { intros x e2 H2. destruct (in_score_range x); auto. }
    simpl in Hlen.
    destruct d as [x | k0], e as [| [x' | k] e];
      cbn -[in_score_range accepted_within];
      repeat match goal with
             | |- context [?k =? 1] =>
                 destruct (k =? 1); cbn -[in_score_range accepted_within]
             end;
      first [ apply Hstep; simpl in *; lia | apply IH; simpl in *; lia ].
Qed.

Lemma script_engine_fair (e : script_engine) :
  exists n,
    accepted_within script_engine script_normal script_uniform n e = true.
Proof. exists (List.length e). apply script_engine_accepted. lia. Qed.

Lemma script_normal_not_nan (e : script_engine) :
  is_nan (fst (script_normal SCORE_MEAN_CENTER SCORE_STD_DEV e)) = false.
Proof.
  destruct e as [| [x | k] e]; simpl; try reflexivity.
  destruct (is_nan x) eqn:Hx; [reflexivity | exact Hx].
Qed.

(** A script on which the first student takes three attempts (a score out
    of range, then an injected fault), the second two, and the third is
    drawn from the exhausted script. *)
Definition sample_script : script_engine :=
  [NormalDraw 150%float; UniformDraw 7;
   NormalDraw 55%float; UniformDraw 1;
   NormalDraw 88.5%float; UniformDraw 3;
   NormalDraw (-4.25)%float; UniformDraw 20;
   NormalDraw 72%float; UniformDraw 2].

Example sample_script_run :
  option_map (fun r => fst (fst r))
    (generate_students script_engine script_normal script_uniform 3 3
       sample_script)
  = Some [mkStudent 1 88.5%float; mkStudent 2 72%float;
          mkStudent 3 70%float].
Proof. vm_compute. reflexivity. Qed.

Example sample_script_out_of_fuel :
  generate_students script_engine script_normal script_uniform 2 3
    sample_script = None.
Proof. vm_compute. reflexivity. Qed.

Example generate_injected :
  fst (generate_single_student script_engine script_normal script_uniform 4
         [NormalDraw 55%float; UniformDraw 1])
  = unexpected injected_message.
Proof. vm_compute. reflexivity. Qed.

Example generate_out_of_range :
  fst (generate_single_student script_engine script_normal script_uniform 4
         [NormalDraw 150%float; UniformDraw 7])
  = unexpected (out_of_range_message 150%float).
Proof. vm_compute. reflexivity. Qed.

Example generate_accepted :
  fst (generate_single_student script_engine script_normal script_uniform 4
         [NormalDraw 100%float; UniformDraw 20])
  = value (mkStudent 4 100%float).
Proof. vm_compute. reflexivity. Qed.

(** With no student asked for, the loop body never runs. *)
Example generate_no_student :
  generate_students script_engine script_normal script_uniform 0 0
    sample_script
  = Some ([],
          [Println "========== Generating Data for {} Students (Normal Dist., Retry on Error) =========="
             [Size 0];
           Println "======= Generation Complete: {} Students Generated ======="
             [Size 0]],
          sample_script).
Proof. vm_compute. reflexivity. Qed.

(** Both comparisons of the range test are false of a NaN, so a source that
    yielded one would have it accepted; hence the assumption on the normal
    draws wherever a score is said to be in range. *)
Example generate_accepts_nan :
  fst (generate_single_student unit
         (fun _ _ e => (nan, e)) (fun _ _ e => (2, e)) 4 tt)
  = value (mkStudent 4 nan)
  /\ in_score_range nan = false.
Proof. vm_compute. split; reflexivity. Qed.

Lemma generation_builds_dataset_witness :
  exists fuel students printed e',
    generate_students script_engine script_normal script_uniform fuel 3
      sample_script = Some (students, printed, e') /\
    List.length students = 3%nat /\
    map id students = map Z.of_nat (seq 1 3) /\
    Forall (fun s => in_score_range (score s) = true) students /\
    (forall fuel' r,
       generate_students script_engine script_normal script_uniform fuel' 3
         sample_script = Some r ->
       r = (students, printed, e')).
Proof.
  apply (generation_builds_dataset script_engine script_normal script_uniform
           3 sample_script).
  - vm_compute. discriminate.
  - exact script_engine_fair.
  - exact script_normal_not_nan.
Defined.

(** C1 as stated fails past [INT_MAX]: on the exhausted script, which is
    accepted at every attempt, the loop for 2^31 students finishes and the
    ids it leaves are not 1, ..., 2^31. *)
Lemma generation_ids_wrap_past_int_max :
  exists fuel students printed e',
    generate_students script_engine script_normal script_uniform fuel
      (Z.to_nat (2 ^ 31)) [] = Some (students, printed, e') /\
    map id students <> map Z.of_nat (seq 1 (Z.to_nat (2 ^ 31))).
Proof.
  destruct (generate_students_terminates script_engine script_normal
              script_uniform (Z.to_nat (2 ^ 31)) [] script_engine_fair)
    as (fuel & [[students printed] e'] & Hrun).
  exists fuel, students, printed, e'. split; [exact Hrun |].
  apply (generate_students_ids_wrap script_engine script_normal
           script_uniform fuel _ [] students printed e'); [| exact Hrun].
  rewrite Z2Nat.id by (apply Z.pow_nonneg; lia).
  reflexivity.
Qed.

Example insertion_sort_example :
  insertion_sort greater score sort_example = sort_example_sorted.
Proof. vm_compute. reflexivity. Qed.

Lemma insertion_sort_sorts_example :
  sorted_by greater score sort_example
    (insertion_sort greater score sort_example).
Proof.
  rewrite insertion_sort_example. split.
  - unfold sort_example, sort_example_sorted.
    eapply perm_trans; [apply perm_swap | apply perm_skip, perm_swap].
  - repeat constructor.
Qed.

Lemma insertion_sort_sorts_nil :
  sorted_by greater score [] (insertion_sort greater score []).
Proof. split; constructor. Qed.

Lemma insert_by_permutation (x : Student) (l : list Student) :
  Permutation (x :: l) (insert_by greater score x l).
Proof.
  induction l as [| y l IH]; simpl; [apply Permutation_refl |].
  destruct (greater (score x) (score y)); [apply Permutation_refl |].
  eapply perm_trans; [apply perm_swap | apply perm_skip; exact IH].
Qed.

Lemma insert_by_sorted (x : Student) (l : list Student) :
  StronglySorted (fun a b => greater (score b) (score a) = false) l ->
  StronglySorted (fun a b => greater (score b) (score a) = false)
    (insert_by greater score x l).
Proof.
  induction l as [| y l IH]; intros Hs; simpl; [repeat constructor |].
  apply StronglySorted_inv in Hs as [Hs Hall].
  destruct (greater (score x) (score y)) eqn:Hxy.
  - constructor; [constructor; assumption |].
    unfold greater in *. constructor; [apply ltb_asym; exact Hxy |].
    eapply Forall_impl; [| exact Hall]. intros z Hyz. simpl in *.
    destruct (score x <? score z)%float eqn:Hxz; [| reflexivity].
    rewrite (ltb_trans _ _ _ Hxy Hxz) in Hyz. discriminate Hyz.
  - constructor; [apply IH; exact Hs |].
    apply (Permutation_Forall (insert_by_permutation x l)).
    constructor; [exact Hxy | exact Hall].
Qed.

(** The sample sort delivers what the library sort guarantees, on any
    data. *)
Lemma insertion_sort_sorts (data : list Student) :
  sorted_by greater score data (insertion_sort greater score data).
Proof.
  unfold insertion_sort. induction data as [| x l [Hperm Hsorted]]; simpl.
  - split; constructor.
  - split.
    + eapply perm_trans; [apply perm_skip; exact Hperm |].
      apply insert_by_permutation.
    + apply insert_by_sorted. exact Hsorted.
Qed.

Lemma sort_step_example_witness :
  core_logic (step4 insertion_sort) sort_example =
  (sort_example_sorted,
   [Println "--- Sorting Data by Score (Descending)... ---" [];
    Println "--- Data Sorted Successfully ---" [];
    Println "" []]
   ++ print_student_table
        (Str "List: All Students (Sorted by Score Descending)")
        sort_example_sorted false) /\
  fst (run_steps (processing_steps insertion_sort) sort_example)
  = sort_example_sorted /\
  (forall data : list Student,
     Permutation data (fst (core_logic (step4 insertion_sort) data)) /\
     StronglySorted (fun a b => (score a <? score b)%float = false)
       (fst (core_logic (step4 insertion_sort) data)) /\
     fst (execute_processing_step (step4 insertion_sort) data)
     = fst (core_logic (step4 insertion_sort) data)).
Proof.
  pose proof (sort_step_example insertion_sort insertion_sort_sorts_example)
    as (Hbody & _ & Hrun & _ & Hgeneral).
  split; [exact Hbody |]. split; [exact Hrun |].
  intros data.
  destruct (Hgeneral data (insertion_sort_sorts data))
    as (Hperm & Hsorted & _ & Hexec & _).
  split; [exact Hperm |]. split; [exact Hsorted | exact Hexec].
Defined.

(** The sort step on a vector of another length. *)
Example sort_step_two_students :
  fst (core_logic (step4 insertion_sort)
         [mkStudent 1 50%float; mkStudent 2 90%float])
  = [mkStudent 2 90%float; mkStudent 1 50%float].
Proof. vm_compute. reflexivity. Qed.

(** With steps after the sort: steps 1 and 2 run after step 4 are handed the
    sorted vector. *)
Example sort_then_filters :
  collections_seen [step4 insertion_sort; step1; step2] sort_example
  = [sort_example; sort_example_sorted; sort_example_sorted].
Proof. vm_compute. reflexivity. Qed.

Lemma empty_collection_reports_witness :
  core_logic (make_filter_print_step "(1) Filter: Excellent Students"
                (Format "List: Score > {:.1f}" [Double EXCELLENT_THRESHOLD])
                excellent_filter true) [] =
  ([], table_head (Format "List: Score > {:.1f}" [Double EXCELLENT_THRESHOLD])
       ++ [Println "{}" [Str (string_fill TABLE_WIDTH "-"%char)];
           Println "Total matching students: {}" [Size 0];
           no_students_note;
           Println "" []]) /\
  core_logic (step4 insertion_sort) [] =
  ([], [Println "--- Sorting Data by Score (Descending)... ---" [];
        Println "--- Data Sorted Successfully ---" [];
        Println "" []]
       ++ table_head (Str "List: All Students (Sorted by Score Descending)")
       ++ [Println "{}" [Str (string_fill TABLE_WIDTH "-"%char)];
           Println "" []]) /\
  ~ In no_students_note (snd (core_logic (step4 insertion_sort) [])) /\
  core_logic step3 [] =
  ([], [Println "--- Statistics ---" [];
        Println "Number of students analyzed: 0" [];
        Println "Calculated Average Score: N/A" [];
        Println "--------------------" []]
       ++ table_head (Str "List: Scoring >= Average (N/A)")
       ++ [Println "{}" [Str (string_fill TABLE_WIDTH "-"%char)];
           Println "Total matching students: {}" [Size 0];
           no_students_note;
           Println "" []]) /\
  Forall (fun step =>
            execute_processing_step step [] =
            ([], step_header step :: no_data_notice))
         (processing_steps insertion_sort).
Proof.
  exact (empty_collection_reports insertion_sort
           "(1) Filter: Excellent Students"
           (Format "List: Score > {:.1f}" [Double EXCELLENT_THRESHOLD])
           excellent_filter insertion_sort_sorts_nil).
Defined.

(** C4 as stated fails on the sort step: run on an empty vector, its body
    prints a table but not the note, since it asks for no summary. *)
Lemma sort_step_prints_no_note_on_empty :
  ~ In (Println "(No students met the criteria for this list)" [])
       (snd (core_logic (step4 insertion_sort) [])).
Proof. vm_compute. intuition discriminate. Qed.

(** Executed on an empty vector, step 1 prints no table at all. *)
Example step1_executed_on_empty :
  execute_processing_step step1 [] =
  ([], [Println (nl ++ "========== {} ==========")
          [Str "(1) Filter: Excellent Students"];
        Println "--- No student data available to process for this step ---"
          [];
        Println "" []]).
Proof. vm_compute. reflexivity. Qed.

Lemma empty_collection_stays_empty_witness :
  fst (run_steps (processing_steps insertion_sort) []) = [] /\
  Forall (fun seen => seen = [])
         (collections_seen (processing_steps insertion_sort) []) /\
  Forall (fun step =>
            execute_processing_step step [] =
            ([], step_header step :: no_data_notice))
         (processing_steps insertion_sort).
Proof.
  apply (empty_collection_stays_empty (processing_steps insertion_sort)).
  exact (processing_steps_titles insertion_sort).
Defined.

(** A step with the exempt title does run on an empty vector. *)
Example static_step_runs_on_empty :
  execute_processing_step
    (make_action_step "(Hypothetical Static Step)"
       (fun data => (mkStudent 1 50%float :: data, [Println "ran" []])))
    []
  = ([mkStudent 1 50%float],
     [Println (nl ++ "========== {} ==========")
        [Str "(Hypothetical Static Step)"];
      Println "ran" []]).
Proof. vm_compute. reflexivity. Qed.

Lemma generate_single_student_cases_witness :
  (fst (generate_single_student script_engine script_normal script_uniform 4
          [NormalDraw 150%float; UniformDraw 7])
   = unexpected (out_of_range_message 150%float)
   <-> in_score_range 150%float = false) /\
  fst (generate_single_student script_engine script_normal script_uniform 4
         [NormalDraw 55%float; UniformDraw 1])
  = unexpected injected_message.
Proof.
  split.
  - apply (generate_single_student_cases script_engine script_normal
             script_uniform 4 [NormalDraw 150%float; UniformDraw 7]).
    + vm_compute. discriminate.
    + vm_compute. reflexivity.
  - apply (generate_single_student_cases script_engine script_normal
             script_uniform 4 [NormalDraw 55%float; UniformDraw 1]).
    vm_compute. reflexivity.
Defined.

Lemma execute_processing_step_guard_witness :
  execute_processing_step step1 [mkStudent 1 90%float] =
  (fst (core_logic step1 [mkStudent 1 90%float]),
   step_header step1 :: snd (core_logic step1 [mkStudent 1 90%float])) /\
  execute_processing_step step1 [] =
  ([],
   [step_header step1;
    Println "--- No student data available to process for this step ---" [];
    Println "" []]).
Proof.
  split.
  - apply (execute_processing_step_guard step1 [mkStudent 1 90%float]).
    left. discriminate.
  - apply (execute_processing_step_guard step1 []).
    intros [H | H]; [apply H; reflexivity | discriminate H].
Defined.

(* ------------------------------------------------------------------ *)
(** ** Further runs on the sample library parts *)

Lemma sort_step_report_witness :
  Permutation sort_example (fst (core_logic (step4 insertion_sort) sort_example))
  /\ List.length (fst (core_logic (step4 insertion_sort) sort_example))
     = List.length sort_example
  /\ StronglySorted (fun a b => (score a <? score b)%float = false)
       (fst (core_logic (step4 insertion_sort) sort_example))
  /\ (forall i s,
        nth_error (fst (core_logic (step4 insertion_sort) sort_example)) i
        = Some s ->
        nth_error (snd (core_logic (step4 insertion_sort) sort_example))
          (6 + i)
        = Some (table_row s))
  /\ (forall s,
        In (table_row s)
           (snd (core_logic (step4 insertion_sort) sort_example))
        <-> In s sort_example).
Proof.
  apply (sort_step_report insertion_sort sort_example).
  exact insertion_sort_sorts_example.
Defined.

(** With a NaN among the scores the order is no strict weak ordering: 1.0
    and 2.0 are each unordered with NaN, yet ordered with each other. *)
Example sort_order_with_nan :
  greater 1%float nan = false /\ greater nan 1%float = false /\
  greater nan 2%float = false /\ greater 2%float nan = false /\
  greater 2%float 1%float = true.
Proof. vm_compute. repeat split. Qed.

Lemma sort_order_strict_weak_witness :
  let a := mkStudent 1 70%float in
  let b := mkStudent 2 70%float in
  let c := mkStudent 3 70%float in
  let before x y := greater (score x) (score y) in
  before a a = false /\
  (before a b = true -> before b a = false) /\
  (before a b = true -> before b c = true -> before a c = true) /\
  (before a b = false -> before b a = false ->
   before b c = false -> before c b = false ->
   before a c = false /\ before c a = false).
Proof.
  apply (sort_order_strict_weak (mkStudent 1 70%float)
           (mkStudent 2 70%float) (mkStudent 3 70%float));
    vm_compute; reflexivity.
Defined.

Lemma attempt_loop_log_witness :
  exists failures,
    [failed_line 1 (out_of_range_message 150%float);
     failed_line 2 injected_message;
     ok_line (mkStudent 1 88.5%float) 3]
    = failures
      ++ [ok_line (mkStudent 1 88.5%float)
            (0 + List.length
                   [failed_line 1 (out_of_range_message 150%float);
                    failed_line 2 injected_message;
                    ok_line (mkStudent 1 88.5%float) 3])] /\
    (List.length
       [failed_line 1 (out_of_range_message 150%float);
        failed_line 2 injected_message;
        ok_line (mkStudent 1 88.5%float) 3] <= 5)%nat /\
    (forall i line,
       nth_error failures i = Some line ->
       exists error,
         line = failed_line (0 + i + 1) error /\
         (error = injected_message \/
          exists x, error = out_of_range_message x)).
Proof.
  apply (attempt_loop_log script_engine script_normal script_uniform
           5 1 0 sample_script (mkStudent 1 88.5%float)
           [failed_line 1 (out_of_range_message 150%float);
            failed_line 2 injected_message;
            ok_line (mkStudent 1 88.5%float) 3]
           [NormalDraw (-4.25)%float; UniformDraw 20;
            NormalDraw 72%float; UniformDraw 2]).
  vm_compute. reflexivity.
Defined.

Lemma generation_never_gives_up_witness :
  generate_students unit (fun _ _ e => (70%float, e)) (fun _ _ e => (1, e))
    1000 1 tt = None.
Proof.
  apply (generation_never_gives_up unit
           (fun _ _ e => (70%float, e)) (fun _ _ e => (1, e)) 1 tt).
  - intros e0. reflexivity.
  - lia.
Defined.

(** The parts of a finished run. *)
Definition run_students {E : Type}
  (r : option (list Student * stdout * E)) : list Student :=
  match r with Some (students, _, _) => students | None => [] end.

Definition run_output {E : Type}
  (r : option (list Student * stdout * E)) : stdout :=
  match r with Some (_, printed, _) => printed | None => [] end.

Definition run_engine (r : option (list Student * stdout * script_engine))
  : script_engine :=
  match r with Some (_, _, e) => e | None => [] end.

Definition sample_run (count : nat)
  : option (list Student * stdout * script_engine) :=
  generate_students script_engine script_normal script_uniform 3 count
    sample_script.

Lemma generation_prefix_stable_witness :
  exists s attempts,
    run_students (sample_run 3) = run_students (sample_run 2) ++ [s] /\
    attempt_loop script_engine script_normal script_uniform 3
      (id_at 2) 0 (run_engine (sample_run 2))
    = Some (s, attempts, run_engine (sample_run 3)).
Proof.
  apply (generation_prefix_stable script_engine script_normal script_uniform
           3 3 2 sample_script
           (run_students (sample_run 2)) (run_students (sample_run 3))
           (run_output (sample_run 2)) (run_output (sample_run 3))
           (run_engine (sample_run 2)) (run_engine (sample_run 3)));
    vm_compute; reflexivity.
Defined.

Lemma main_outcome_witness :
  exists fuel generated log e',
    generate_students script_engine script_normal script_uniform fuel
      NUM_STUDENTS sample_script = Some (generated, log, e') /\
    List.length generated = 30%nat /\
    map id generated = map Z.of_nat (seq 1 30) /\
    main script_engine script_normal script_uniform insertion_sort fuel
      sample_script =
    Some (insertion_sort greater score generated,
          log
          ++ [Println (nl ++ "========== Processing Student Data ==========")
                []]
          ++ snd (run_steps (processing_steps insertion_sort) generated)
          ++ [Println (nl ++ "========== Processing Complete ==========") []],
          e').
Proof.
  apply (main_outcome script_engine script_normal script_uniform
           insertion_sort sample_script).
  exact script_engine_fair.
Defined.

(** [main] on the sample script: thirty students are left, the two highest
    scores first (the other students all score 70.0, drawn from the
    exhausted script). *)
Example main_on_sample_script :
  option_map (fun r => (firstn 2 (fst (fst r)), List.length (fst (fst r))))
    (main script_engine script_normal script_uniform insertion_sort 30
       sample_script)
  = Some ([mkStudent 1 88.5%float; mkStudent 2 72%float], 30%nat).
Proof. vm_compute. reflexivity. Qed.

(** A step that changes the vector, followed by one that lists it. *)
Definition push_step : ProcessingStep :=
  make_action_step "(A) Push"
    (fun data => (mkStudent 2 20%float :: data, [Println "pushed" []])).

Definition list_step : ProcessingStep :=
  make_filter_print_step "(B) List" (Str "List: All") (fun _ => true) true.

Lemma step_loop_order_witness :
  nth_error (collections_seen [push_step; list_step] [mkStudent 1 10%float]) 1
  = Some [mkStudent 2 20%float; mkStudent 1 10%float] /\
  snd (execute_processing_step list_step
         [mkStudent 2 20%float; mkStudent 1 10%float])
  = step_header list_step
    :: snd (core_logic list_step
              [mkStudent 2 20%float; mkStudent 1 10%float]) /\
  fst (run_steps [push_step; list_step] [mkStudent 1 10%float])
  = [mkStudent 2 20%float; mkStudent 1 10%float].
Proof.
  pose proof (step_loop_order [] [] push_step list_step
                [mkStudent 1 10%float]) as H.
  cbv zeta in H.
  destruct H as (_ & Hseen & _ & Hbody & _ & _ & _ & Hrun).
  split; [exact Hseen |]. split.
  - apply Hbody. discriminate.
  - change ([] ++ [push_step; list_step]) with [push_step; list_step] in Hrun.
    rewrite Hrun. reflexivity.
Defined.

(** The row of the student pushed by the first step is in the table of the
    second. *)
Example pushed_student_listed :
  In (table_row (mkStudent 2 20%float))
     (snd (run_steps [push_step; list_step] [mkStudent 1 10%float])).
Proof. vm_compute. do 6 right. left. reflexivity. Qed.

